(** * BrianKnows MCP server: tool dispatcher, recent-results cache, resources

    A shallow embedding of [index.ts] and [types.ts] of the BrianKnows MCP
    server.  The server holds one piece of mutable state, the array
    [recentSearches]; every handler is an [async] function that may read
    the clock, perform one outbound HTTP call through axios, mutate the
    array and either return or throw.  The handlers are written below in
    a small state-and-exception monad whose runs also yield the list of
    HTTP requests handed to axios. *)

From Stdlib Require Import String Ascii List ZArith Bool Lia DecimalString DecimalNat.
Import ListNotations.
Local Open Scope string_scope.
Set Warnings "-register-all".

(** ** JavaScript values *)

(** The data that reaches the handlers is JSON: tool arguments arrive
    through JSON-RPC and upstream payloads through axios.  Numbers are
    carried by their integer value; [typeof] and truthiness are the only
    operations the program applies to an argument number.  An object is
    the ordered list of its own properties. *)
Inductive Json : Type :=
| JNull
| JBool (b : bool)
| JNumber (n : Z)
| JString (s : string)
| JArray (elems : list Json)
| JObject (fields : list (string * Json)).

(** A JavaScript value is a JSON value or [undefined] ([None]). *)
Definition JsVal : Type := option Json.

Definition undefined : JsVal := None.

(** [typeof v]. *)
Definition typeof (v : JsVal) : string :=
  match v with
  | None => "undefined"
  | Some JNull => "object"
  | Some (JBool _) => "boolean"
  | Some (JNumber _) => "number"
  | Some (JString _) => "string"
  | Some (JArray _) => "object"
  | Some (JObject _) => "object"
  end.

(** ToBoolean: [undefined], [null], [false], [0] and the empty string are
    falsy, everything else (every object and array included) is truthy. *)
Definition truthy (v : JsVal) : bool :=
  match v with
  | None => false
  | Some JNull => false
  | Some (JBool b) => b
  | Some (JNumber n) => negb (n =? 0)%Z
  | Some (JString EmptyString) => false
  | Some (JString (String _ _)) => true
  | Some (JArray _) => true
  | Some (JObject _) => true
  end.

(** [v === undefined]. *)
Definition is_undefined (v : JsVal) : bool :=
  match v with None => true | Some _ => false end.

(** [v === null]. *)
Definition is_null (v : JsVal) : bool :=
  match v with Some JNull => true | _ => false end.

Definition nullish (v : JsVal) : bool := is_undefined v || is_null v.

(** [a || b]: the left operand when it is truthy, else the right one. *)
Definition js_or (a b : JsVal) : JsVal := if truthy a then a else b.

(** [a ?? b]: the left operand unless it is [null] or [undefined]. *)
Definition js_coalesce (a b : JsVal) : JsVal := if nullish a then b else a.

Fixpoint assoc (k : string) (fields : list (string * Json)) : JsVal :=
  match fields with
  | [] => None
  | (k', v) :: rest => if String.eqb k k' then Some v else assoc k rest
  end.

(** Property read [o.k] on a value that is neither [null] nor
    [undefined].  The program reads the names [query], [kb], [numResults],
    [prompt], [address], [chainId], [kbId] and [error]; none of them is
    defined on the prototypes of objects, arrays, strings, numbers or
    booleans, so only an own property of an object yields a value. *)
Definition get_own (o : Json) (k : string) : JsVal :=
  match o with
  | JObject fields => assoc k fields
  | _ => None
  end.

(** Optional chaining [v?.k]. *)
Definition opt_get (v : JsVal) (k : string) : JsVal :=
  match v with
  | None => None
  | Some JNull => None
  | Some o => get_own o k
  end.

(** ** types.ts *)

(** [isValidSearchArgs].  The reads [obj.query], [obj.kb] and
    [obj.numResults] sit behind the two object tests, so they never meet
    [null] or [undefined]. *)
Definition isValidSearchArgs (obj : JsVal) : bool :=
  match obj with
  | None => false                       (* typeof undefined !== 'object' *)
  | Some o =>
      String.eqb (typeof (Some o)) "object"
      && negb (is_null (Some o))
      && String.eqb (typeof (get_own o "query")) "string"
      && (is_undefined (get_own o "kb")
          || String.eqb (typeof (get_own o "kb")) "string")
      && (is_undefined (get_own o "numResults")
          || String.eqb (typeof (get_own o "numResults")) "number")
  end.

(** [CachedSearch].  The interface declares [query: string]; [handleAgent]
    stores [args.prompt] there, which is only known to be truthy. *)
Record CachedSearch : Type := mkCachedSearch {
  query : JsVal;
  response : Json;
  timestamp : string
}.

(** The interface [SearchArgs]: an object with a string [query], a [kb]
    that is absent or a string, and a [numResults] that is absent or a
    number.  Other properties are allowed, as TypeScript allows them on a
    value met at run time. *)
Definition SearchArgs (v : JsVal) : Prop :=
  exists fields q,
    v = Some (JObject fields) /\
    assoc "query" fields = Some (JString q) /\
    (assoc "kb" fields = None \/ exists k, assoc "kb" fields = Some (JString k)) /\
    (assoc "numResults" fields = None \/
     exists n, assoc "numResults" fields = Some (JNumber n)).

(** ** The outside world: axios, the clock, the MCP SDK *)

(** The part of [API_CONFIG] the handlers use. *)
Module API_CONFIG.
Module ENDPOINTS.
Definition PING : string := "/api/v0/utils/ping".
Definition AGENT : string := "/api/v0/agent".
Definition KNOWLEDGE : string := "/api/v0/agent/knowledge".
End ENDPOINTS.
Definition DEFAULT_KB : string := "public-knowledge-box".
Definition MAX_CACHED_SEARCHES : nat := 5.
End API_CONFIG.

(** An HTTP response as axios presents it; [data] is the parsed body. *)
Module AxiosResponse.
Record t : Type := mk { status : Z; data : Json }.
End AxiosResponse.

(** The error axios rejects with on a non-2xx status ([response] set) or
    on a network failure ([response] undefined). *)
Module AxiosError.
Record t : Type := mk { message : string; response : option AxiosResponse.t }.
End AxiosError.

(** A request handed to [axiosInstance].  The body of a POST is the
    object literal built by the handler: its keys in order, a key whose
    value is [undefined] included. *)
Inductive HttpRequest : Type :=
| HttpGet (url : string)
| HttpPost (url : string) (body : list (string * JsVal)).

Inductive HttpReply : Type :=
| Resolved (r : AxiosResponse.t)
| Rejected (e : AxiosError.t).

(** What one request handler sees of the world: how the upstream service
    answers, and what [new Date().toISOString()] yields. *)
Record Env : Type := mkEnv {
  http : HttpRequest -> HttpReply;
  now : string
}.

(** The error codes of the SDK that the server uses. *)
Inductive ErrorCode : Type := InvalidRequest | MethodNotFound | InvalidParams.

(** Values a handler can throw.  [McpError c m] stands for
    [new McpError(c, m)]. *)
Inductive Exn : Type :=
| McpError (code : ErrorCode) (msg : string)
| AxiosErr (e : AxiosError.t)
| TypeError.

(** [axios.isAxiosError]. *)
Definition isAxiosError (error : Exn) : bool :=
  match error with AxiosErr _ => true | _ => false end.

(** ** The handler monad *)

(** A computation reads the world, threads [recentSearches], lists the
    HTTP requests it made, and returns or throws.  A throw keeps the state
    reached so far: JavaScript does not roll mutations back. *)
Definition M (A : Type) : Type :=
  Env -> list CachedSearch -> list CachedSearch * list HttpRequest * (Exn + A).

Definition ret {A} (x : A) : M A := fun _ s => (s, [], inr x).

Definition throw {A} (e : Exn) : M A := fun _ s => (s, [], inl e).

Definition bind {A B} (m : M A) (f : A -> M B) : M B :=
  fun env s =>
    match m env s with
    | (s1, t1, inl e) => (s1, t1, inl e)
    | (s1, t1, inr a) =>
        let '(s2, t2, r) := f a env s1 in (s2, (t1 ++ t2)%list, r)
    end.

(** [try { m } catch (error) { h error }]. *)
Definition try_catch {A} (m : M A) (h : Exn -> M A) : M A :=
  fun env s =>
    match m env s with
    | (s1, t1, inl e) =>
        let '(s2, t2, r) := h e env s1 in (s2, (t1 ++ t2)%list, r)
    | (s1, t1, inr a) => (s1, t1, inr a)
    end.

Declare Scope js_scope.
Delimit Scope js_scope with js.
Notation "x <- m ;; k" := (bind m (fun x => k))
  (at level 61, m at next level, right associativity) : js_scope.
Notation "m ;; k" := (bind m (fun _ => k))
  (at level 61, right associativity) : js_scope.

Definition lift {A} (r : Exn + A) : M A :=
  match r with inl e => throw e | inr x => ret x end.

(** [this.recentSearches], read and updated in place. *)
Definition recentSearches : M (list CachedSearch) := fun _ s => (s, [], inr s).

Definition mutate (f : list CachedSearch -> list CachedSearch) : M unit :=
  fun _ s => (f s, [], inr tt).

(** [new Date().toISOString()]. *)
Definition Date_toISOString : M string := fun env s => (s, [], inr (now env)).

(** [await this.axiosInstance.get(url)] and [.post(url, body)]: the
    request is made; a rejection is thrown at the [await]. *)
Definition axios (rq : HttpRequest) : M AxiosResponse.t :=
  fun env s =>
    match http env rq with
    | Resolved r => (s, [rq], inr r)
    | Rejected e => (s, [rq], inl (AxiosErr e))
    end.

Definition axios_get (url : string) : M AxiosResponse.t := axios (HttpGet url).

Definition axios_post (url : string) (body : list (string * JsVal)) : M AxiosResponse.t :=
  axios (HttpPost url body).

(** Property read [v.k]; a [TypeError] on [null] and [undefined]. *)
Definition get (v : JsVal) (k : string) : M JsVal :=
  match v with
  | None => throw TypeError
  | Some JNull => throw TypeError
  | Some o => ret (get_own o k)
  end.

(** [Array.prototype.unshift] and [Array.prototype.pop] on the elements. *)
Definition unshift {A} (x : A) (l : list A) : list A := x :: l.

Definition pop {A} (l : list A) : list A := removelast l.

(** ** Results handed back to the SDK *)

Module TextContent.
Record t : Type := mk { type : string; text : string }.
End TextContent.

(** A tool result; [isError] is [None] where the literal has no such key. *)
Module ToolResult.
Record t : Type := mk { content : list TextContent.t; isError : option bool }.
End ToolResult.

Module ResourceContents.
Record t : Type := mk { uri : string; mimeType : string; text : string }.
End ResourceContents.

Module ReadResult.
Record t : Type := mk { contents : list ResourceContents.t }.
End ReadResult.

(** A resource descriptor, as the list-resources handler builds it. *)
Module Resource.
Record t : Type := mk {
  uri : string; name : string; mimeType : string; description : string
}.
End Resource.

Module ListResourcesResult.
Record t : Type := mk { resources : list Resource.t }.
End ListResourcesResult.

(** A tool descriptor with its input schema, as the list-tools handler
    spells it out. *)
Module PropertySchema.
Record t : Type := mk { type : string; description : string }.
End PropertySchema.

Module InputSchema.
Record t : Type := mk {
  type : string;
  properties : list (string * PropertySchema.t);
  required : list string
}.
End InputSchema.

Module Tool.
Record t : Type := mk { name : string; description : string; inputSchema : InputSchema.t }.
End Tool.

Module ListToolsResult.
Record t : Type := mk { tools : list Tool.t }.
End ListToolsResult.

(** The handler registered for [ListToolsRequestSchema]: a constant. *)
Definition listTools : ListToolsResult.t :=
  ListToolsResult.mk
    [Tool.mk "ping" "Check if the Brian API server is alive"
       (InputSchema.mk "object" [] []);
     Tool.mk "search" "Search using Brian's knowledge engine"
       (InputSchema.mk "object"
          [("query", PropertySchema.mk "string" "Search query");
           ("kb", PropertySchema.mk "string"
                    "Knowledge box to search in (default: public-knowledge-box). Options: circle_kb, lido_kb, Polygon_kb, taiko_kb, near_kb, clave_kb, starknet_kb, consensys_kb")]
          ["query"]);
     Tool.mk "agent" "Chat with Brian agent"
       (InputSchema.mk "object"
          [("prompt", PropertySchema.mk "string" "User prompt or question");
           ("address", PropertySchema.mk "string"
                         "User blockchain address (required for blockchain operations)");
           ("chainId", PropertySchema.mk "string" "Blockchain chain ID");
           ("kbId", PropertySchema.mk "string"
                      "Knowledge box ID to use (default: public-knowledge-box)")]
          ["prompt"])].

(** The names the server advertises. *)
Definition advertised : list string := map Tool.name (ListToolsResult.tools listTools).

(** The requests the server is driven with below, and its answers. *)
Inductive Request : Type :=
| CallTool (name : string) (arguments : JsVal)
| ReadResource (uri : string).

Inductive Response : Type :=
| ToolResponse (r : ToolResult.t)
| ResourceResponse (r : ReadResult.t).

(** ** Resource addresses *)

(** [\d]: an ASCII digit. *)
Definition is_digit (c : ascii) : bool :=
  (48 <=? nat_of_ascii c)%nat && (nat_of_ascii c <=? 57)%nat.

Fixpoint all_digits (s : string) : bool :=
  match s with
  | EmptyString => true
  | String c rest => is_digit c && all_digits rest
  end.

Fixpoint strip_prefix (p s : string) : option string :=
  match p, s with
  | EmptyString, _ => Some s
  | String a p', String b s' => if Ascii.eqb a b then strip_prefix p' s' else None
  | String _ _, EmptyString => None
  end.

(** [uri.match(/^brianknows:\/\/searches\/(\d+)$/)], giving the capture
    group [match[1]]: the whole input is the literal prefix followed by
    one or more digits. *)
Definition match_search_uri (uri : string) : option string :=
  match strip_prefix "brianknows://searches/" uri with
  | Some EmptyString => None
  | Some digits => if all_digits digits then Some digits else None
  | None => None
  end.

Definition digit_value (c : ascii) : Z := Z.of_nat (nat_of_ascii c) - 48.

Fixpoint parseInt_from (acc : Z) (s : string) : Z :=
  match s with
  | EmptyString => acc
  | String c rest => parseInt_from (acc * 10 + digit_value c) rest
  end.

(** [parseInt] on a string of decimal digits, the only argument it gets
    here.  JavaScript yields the double nearest to this value; as an array
    index the two agree, since rounding sets in far beyond any array
    length. *)
Definition parseInt (s : string) : Z := parseInt_from 0 s.

(** The decimal numeral of [n], as a client writes a position into an
    address. *)
Definition decimal (n : nat) : string := NilEmpty.string_of_uint (Nat.to_uint n).

(** [n] zeros in a row. *)
Fixpoint zeros (n : nat) : string :=
  match n with
  | O => EmptyString
  | S n' => String "0" (zeros n')
  end.

(** [arr[index]] for a non-negative integer [index]. *)
Definition index_read {A} (arr : list A) (index : Z) : option A :=
  nth_error arr (Z.to_nat index).

(** ** The JavaScript runtime *)

(** Built-ins of the runtime whose results the server only passes on:
    [JSON.stringify(v, null, 2)] on JSON data, the string form of a
    number, and the string form of an array or object (which is a
    [TypeError], [None], when the object shadows [toString] with a value
    that cannot be called). *)
Class Runtime : Type := {
  JSON_stringify : Json -> string;
  Number_toString : Z -> string;
  Object_toString : Json -> option string
}.

(** ** A runtime to run the model on concrete inputs *)

(** One instance of the built-ins, for evaluating the handlers on
    examples.  Integers print in full decimal, which is what JavaScript
    prints for an integer of magnitude below 2^53; beyond that JavaScript
    prints the nearest double, and the examples stay far below.
    [stringify_2] is
    [JSON.stringify(v, null, 2)] for data whose strings hold only
    characters that need no escape other than the quote and the backslash.
    [show_object] follows [Object.prototype.toString] on an object and
    [Array.prototype.join] on an array, where a [null] element gives the
    empty string. *)
Module Sample.

Definition quote : string := String (ascii_of_nat 34) EmptyString.
Definition newline : string := String (ascii_of_nat 10) EmptyString.

Definition show_number (n : Z) : string :=
  NilZero.string_of_int (Z.to_int n).

Fixpoint escape (s : string) : string :=
  match s with
  | EmptyString => EmptyString
  | String c rest =>
      if (Ascii.eqb c (ascii_of_nat 34) || Ascii.eqb c (ascii_of_nat 92))%bool
      then String (ascii_of_nat 92) (String c (escape rest))
      else String c (escape rest)
  end.

Definition quoted (s : string) : string := quote ++ escape s ++ quote.

Fixpoint stringify (indent : string) (v : Json) : string :=
  match v with
  | JNull => "null"
  | JBool true => "true"
  | JBool false => "false"
  | JNumber n => show_number n
  | JString s => quoted s
  | JArray [] => "[]"
  | JArray elems =>
      let inner := indent ++ "  " in
      "[" ++ newline ++ inner
      ++ String.concat ("," ++ newline ++ inner) (map (stringify inner) elems)
      ++ newline ++ indent ++ "]"
  | JObject [] => "{}"
  | JObject fields =>
      let inner := indent ++ "  " in
      "{" ++ newline ++ inner
      ++ String.concat ("," ++ newline ++ inner)
           (map (fun '(k, x) => quoted k ++ ": " ++ stringify inner x) fields)
      ++ newline ++ indent ++ "}"
  end.

Definition stringify_2 (v : Json) : string := stringify EmptyString v.

Fixpoint join (parts : list (option string)) : option string :=
  match parts with
  | [] => Some EmptyString
  | [p] => p
  | p :: rest =>
      match p, join rest with
      | Some a, Some b => Some (a ++ "," ++ b)
      | _, _ => None
      end
  end.

Fixpoint show_object (v : Json) : option string :=
  match v with
  | JNull => Some EmptyString
  | JBool true => Some "true"
  | JBool false => Some "false"
  | JNumber n => Some (show_number n)
  | JString s => Some s
  | JArray elems => join (map show_object elems)
  | JObject fields =>
      match assoc "toString" fields with
      | Some _ => None
      | None => Some "[object Object]"
      end
  end.

Definition runtime : Runtime :=
  {| JSON_stringify := stringify_2;
     Number_toString := show_number;
     Object_toString := show_object |}.

(** An upstream that answers every request with status 200 and the
    given payload, and one that fails every request. *)
Definition answering (payload : Json) (stamp : string) : Env :=
  mkEnv (fun _ => Resolved (AxiosResponse.mk 200 payload)) stamp.

Definition failing (e : AxiosError.t) (stamp : string) : Env :=
  mkEnv (fun _ => Rejected e) stamp.

(** Arguments, payloads and calls for the examples. *)
Definition payload (answer : string) : Json :=
  JObject [("result", JObject [("answer", JString answer)])].

Definition search_args (q : string) : JsVal := Some (JObject [("query", JString q)]).

Definition agent_args (p : string) : JsVal := Some (JObject [("prompt", JString p)]).

Definition search_call (q answer stamp : string) : Env * Request :=
  (answering (payload answer) stamp, CallTool "search" (search_args q)).

Definition agent_call (p answer stamp : string) : Env * Request :=
  (answering (payload answer) stamp, CallTool "agent" (agent_args p)).

Definition result_of (q answer stamp : string) : CachedSearch :=
  mkCachedSearch (Some (JString q)) (payload answer) stamp.

Definition six_calls : list (Env * Request) :=
  [search_call "q1" "a1" "t1"; agent_call "q2" "a2" "t2"; search_call "q3" "a3" "t3";
   agent_call "q4" "a4" "t4"; search_call "q5" "a5" "t5"; agent_call "q6" "a6" "t6"].

Definition six_results : list CachedSearch :=
  [result_of "q1" "a1" "t1"; result_of "q2" "a2" "t2"; result_of "q3" "a3" "t3";
   result_of "q4" "a4" "t4"; result_of "q5" "a5" "t5"; result_of "q6" "a6" "t6"].

Definition network_error : AxiosError.t := AxiosError.mk "Network Error" None.

Definition rate_limited : AxiosError.t :=
  AxiosError.mk "Request failed with status code 429"
    (Some (AxiosResponse.mk 429 (JObject [("error", JString "Too many requests")]))).

Definition empty_address_args : JsVal :=
  Some (JObject [("prompt", JString "hi"); ("address", JString EmptyString)]).

Definition two_entries : list CachedSearch :=
  [result_of "q2" "a2" "t2"; result_of "q1" "a1" "t1"].

(** An object that shadows [toString] with a number, and an agent call
    that has it for prompt. *)
Definition shadowing : Json := JObject [("toString", JNumber 1)].

Definition shadowing_args : JsVal := Some (JObject [("prompt", shadowing)]).

Definition shadowing_error : AxiosError.t :=
  AxiosError.mk "Request failed with status code 500"
    (Some (AxiosResponse.mk 500 (JObject [("error", shadowing)]))).

(** A mixed run: a ping, a search that succeeds, a search without query,
    a read, an agent call that meets a network error, an unknown tool, an
    agent call that succeeds. *)
Definition mixed_run : list (Env * Request) :=
  [(answering (payload "pong") "t0", CallTool "ping" None);
   search_call "q1" "a1" "t1";
   (answering (payload "a2") "t2", CallTool "search" (Some (JObject [])));
   (answering JNull "t3", ReadResource "brianknows://searches/0");
   (failing network_error "t4", CallTool "agent" (agent_args "q4"));
   (answering (payload "a5") "t5", CallTool "list" None);
   agent_call "q6" "a6" "t6"].

End Sample.

(** ** The server *)

Section Server.

Context {runtime : Runtime}.

(** ToString, as a template literal applies it to a hole. *)
Definition ToString (v : JsVal) : Exn + string :=
  match v with
  | None => inr "undefined"
  | Some JNull => inr "null"
  | Some (JBool true) => inr "true"
  | Some (JBool false) => inr "false"
  | Some (JNumber n) => inr (Number_toString n)
  | Some (JString s) => inr s
  | Some o =>
      match Object_toString o with
      | Some s => inr s
      | None => inl TypeError
      end
  end.

Local Open Scope js_scope.

(** The tool result both [handlePing] and the two caching handlers end
    with: [{ content: [{ type: "text", text: JSON.stringify(d, null, 2) }] }]. *)
Definition text_result (d : Json) : ToolResult.t :=
  ToolResult.mk [TextContent.mk "text" (JSON_stringify d)] None.

Definition handlePing : M ToolResult.t :=
  response <- axios_get API_CONFIG.ENDPOINTS.PING ;;
  ret (text_result (AxiosResponse.data response)).

Definition handleSearch (args : JsVal) : M ToolResult.t :=
  args_query <- get args "query" ;;
  args_kb <- get args "kb" ;;
  let prompt := args_query in
  let searchRequest :=
    [("prompt", prompt);
     ("kb", js_or args_kb (Some (JString API_CONFIG.DEFAULT_KB)))] in
  response <- axios_post API_CONFIG.ENDPOINTS.KNOWLEDGE searchRequest ;;
  (* Cache the search result *)
  stamp <- Date_toISOString ;;
  mutate (unshift (mkCachedSearch prompt (AxiosResponse.data response) stamp)) ;;
  (* Keep only recent searches *)
  cache <- recentSearches ;;
  (if (API_CONFIG.MAX_CACHED_SEARCHES <? length cache)%nat
   then mutate pop else ret tt) ;;
  ret (text_result (AxiosResponse.data response)).

Definition handleAgent (args : JsVal) : M ToolResult.t :=
  args_prompt <- get args "prompt" ;;
  args_address <- get args "address" ;;
  args_chainId <- get args "chainId" ;;
  args_kbId <- get args "kbId" ;;
  let prompt := args_prompt in
  let agentRequest :=
    [("prompt", prompt);
     ("address", js_or args_address
                   (Some (JString "0x0000000000000000000000000000000000000000")));
     ("chainId", args_chainId);
     ("kbId", js_or args_kbId (Some (JString API_CONFIG.DEFAULT_KB)))] in
  response <- axios_post API_CONFIG.ENDPOINTS.AGENT agentRequest ;;
  (* Cache the agent response *)
  stamp <- Date_toISOString ;;
  mutate (unshift (mkCachedSearch prompt (AxiosResponse.data response) stamp)) ;;
  (* Keep only recent searches *)
  cache <- recentSearches ;;
  (if (API_CONFIG.MAX_CACHED_SEARCHES <? length cache)%nat
   then mutate pop else ret tt) ;;
  ret (text_result (AxiosResponse.data response)).

(** [error.response?.data?.error]. *)
Definition upstream_error (e : AxiosError.t) : JsVal :=
  match AxiosError.response e with
  | None => undefined
  | Some r => opt_get (Some (AxiosResponse.data r)) "error"
  end.

(** The [catch (error)] block of the tool handler. *)
Definition catch_block (error : Exn) : M ToolResult.t :=
  match error with
  | AxiosErr e =>                       (* axios.isAxiosError(error) *)
      shown <- lift (ToString (js_coalesce (upstream_error e)
                                 (Some (JString (AxiosError.message e))))) ;;
      ret (ToolResult.mk
             [TextContent.mk "text" ("Brian API error: " ++ shown)]
             (Some true))
  | _ => throw error
  end.

(** The handler registered for [CallToolRequestSchema], applied to
    [request.params.name] and [request.params.arguments].  The
    [console.log] of the request is left out. *)
Definition callTool (name : string) (arguments : JsVal) : M ToolResult.t :=
  try_catch
    (if name =? "ping" then handlePing
     else if name =? "search" then
       if negb (isValidSearchArgs arguments)
       then throw (McpError InvalidParams "Invalid search arguments")
       else handleSearch arguments
     else if name =? "agent" then
       (* Validate agent arguments *)
       if negb (truthy (opt_get arguments "prompt"))
       then throw (McpError InvalidParams "Missing required 'prompt' parameter")
       else handleAgent arguments
     else throw (McpError MethodNotFound ("Unknown tool: " ++ name)))
    catch_block.

(** The handler registered for [ReadResourceRequestSchema], applied to
    [request.params.uri]. *)
Definition readResource (uri : string) : M ReadResult.t :=
  match match_search_uri uri with
  | None => throw (McpError InvalidRequest ("Unknown resource: " ++ uri))
  | Some match_1 =>
      let index := parseInt match_1 in
      cache <- recentSearches ;;
      match index_read cache index with
      | None =>
          throw (McpError InvalidRequest
                   ("Search result not found: " ++ Number_toString index))
      | Some search =>
          ret (ReadResult.mk
                 [ResourceContents.mk uri "application/json"
                    (JSON_stringify (response search))])
      end
  end.

(** *** Serving a sequence of requests *)

Definition handle (rq : Request) : M Response :=
  match rq with
  | CallTool name arguments =>
      r <- callTool name arguments ;; ret (ToolResponse r)
  | ReadResource uri =>
      r <- readResource uri ;; ret (ResourceResponse r)
  end.

(** Requests are handled one at a time, each to completion, each in the
    world of its moment.  A handler that throws leaves the server
    running: the SDK answers with a protocol error and the next request
    is taken.  The run yields the final cache and, per request, the HTTP
    requests made and the answer. *)
Fixpoint serve (rqs : list (Env * Request)) (cache : list CachedSearch)
  : list CachedSearch * list (list HttpRequest * (Exn + Response)) :=
  match rqs with
  | [] => (cache, [])
  | (env, rq) :: rest =>
      let '(cache1, made, answer) := handle rq env cache in
      let '(cache2, answers) := serve rest cache1 in
      (cache2, (made, answer) :: answers)
  end.

(** *** Derived forms *)

(** The two statements that cache a result, [unshift] and the guarded
    [pop], as one function on the array. *)
Definition remember (e : CachedSearch) (cache : list CachedSearch)
  : list CachedSearch :=
  let cache1 := unshift e cache in
  if (API_CONFIG.MAX_CACHED_SEARCHES <? length cache1)%nat
  then pop cache1 else cache1.

(** The object literals [searchRequest] and [agentRequest] as functions
    of the arguments. *)
Definition searchRequest (args : JsVal) : list (string * JsVal) :=
  [("prompt", opt_get args "query");
   ("kb", js_or (opt_get args "kb") (Some (JString API_CONFIG.DEFAULT_KB)))].

Definition agentRequest (args : JsVal) : list (string * JsVal) :=
  [("prompt", opt_get args "prompt");
   ("address", js_or (opt_get args "address")
                 (Some (JString "0x0000000000000000000000000000000000000000")));
   ("chainId", opt_get args "chainId");
   ("kbId", js_or (opt_get args "kbId") (Some (JString API_CONFIG.DEFAULT_KB)))].

(** What the [catch] block of the tool handler makes of an axios error. *)
Definition error_result (shown : string) : ToolResult.t :=
  ToolResult.mk [TextContent.mk "text" ("Brian API error: " ++ shown)] (Some true).

Definition caught (e : AxiosError.t) : Exn + ToolResult.t :=
  match ToString (js_coalesce (upstream_error e)
                    (Some (JString (AxiosError.message e)))) with
  | inr shown => inr (error_result shown)
  | inl x => inl x
  end.

(** A search or agent call that succeeds, with the result it yields:
    the arguments pass validation and the upstream call resolves. *)
Inductive Succeeds (env : Env) : Request -> CachedSearch -> Prop :=
| search_succeeds args r :
    isValidSearchArgs args = true ->
    http env (HttpPost API_CONFIG.ENDPOINTS.KNOWLEDGE (searchRequest args))
      = Resolved r ->
    Succeeds env (CallTool "search" args)
      (mkCachedSearch (opt_get args "query") (AxiosResponse.data r) (now env))
| agent_succeeds args r :
    truthy (opt_get args "prompt") = true ->
    http env (HttpPost API_CONFIG.ENDPOINTS.AGENT (agentRequest args))
      = Resolved r ->
    Succeeds env (CallTool "agent" args)
      (mkCachedSearch (opt_get args "prompt") (AxiosResponse.data r) (now env)).

(** The JSON that reaches the wire for a body literal: axios serializes
    the body with [JSON.stringify], which drops a key whose value is
    [undefined]. *)
Fixpoint wire_fields (body : list (string * JsVal)) : list (string * Json) :=
  match body with
  | [] => []
  | (k, Some v) :: rest => (k, v) :: wire_fields rest
  | (_, None) :: rest => wire_fields rest
  end.

Definition wire (body : list (string * JsVal)) : Json := JObject (wire_fields body).

(** The value an object literal holds under a key, if it has the key. *)
Fixpoint assoc_body (k : string) (body : list (string * JsVal)) : option JsVal :=
  match body with
  | [] => None
  | (k', v) :: rest => if String.eqb k k' then Some v else assoc_body k rest
  end.

(** The array a fresh server starts with. *)
Definition initial_cache : list CachedSearch := [].

(** The ways a tool call can end, seen from outside: the cache after,
    the HTTP requests made, the answer. *)
Inductive Outcome (env : Env) (c : list CachedSearch) (name : string) (args : JsVal)
  : list CachedSearch * list HttpRequest * (Exn + ToolResult.t) -> Prop :=
| invocation_rejected code msg :
    Outcome env c name args (c, [], inl (McpError code msg))
| upstream_failed rq e :
    http env rq = Rejected e ->
    Outcome env c name args (c, [rq], caught e)
| ping_answered r :
    name = "ping" ->
    http env (HttpGet API_CONFIG.ENDPOINTS.PING) = Resolved r ->
    Outcome env c name args
      (c, [HttpGet API_CONFIG.ENDPOINTS.PING], inr (text_result (AxiosResponse.data r)))
| result_cached rq r entry :
    http env rq = Resolved r ->
    Succeeds env (CallTool name args) entry ->
    Outcome env c name args
      (remember entry c, [rq], inr (text_result (AxiosResponse.data r))).

(** The answer of a tool call as [serve] lists it. *)
Definition tool_answer (a : Exn + ToolResult.t) : Exn + Response :=
  match a with
  | inl x => inl x
  | inr r => inr (ToolResponse r)
  end.

(** *** Listing resources *)

(** The object the callback of [recentSearches.map] builds for one entry.
    The template literals are evaluated in the order of the keys: [uri]
    from the index, then [name] and [description], each converting
    [search.query] to a string. *)
Definition describe (search : CachedSearch) (index : nat) : Exn + Resource.t :=
  let uri := "brianknows://searches/" ++ Number_toString (Z.of_nat index) in
  match ToString (query search) with
  | inl x => inl x
  | inr in_name =>
      match ToString (query search) with
      | inl x => inl x
      | inr in_description =>
          inr (Resource.mk uri
                 ("Recent search: " ++ in_name)
                 "application/json"
                 ("Search results for: " ++ in_description
                  ++ " (" ++ timestamp search ++ ")"))
      end
  end.

(** [arr.map((x, index) => f x index)], from [index] on; the first
    callback that throws ends the loop. *)
Fixpoint map_from {A B} (f : A -> nat -> Exn + B) (index : nat) (arr : list A)
  : Exn + list B :=
  match arr with
  | [] => inr []
  | x :: rest =>
      match f x index with
      | inl e => inl e
      | inr y =>
          match map_from f (S index) rest with
          | inl e => inl e
          | inr ys => inr (y :: ys)
          end
      end
  end.

(** The handler registered for [ListResourcesRequestSchema]. *)
Definition listResources : M ListResourcesResult.t :=
  cache <- recentSearches ;;
  described <- lift (map_from describe 0 cache) ;;
  ret (ListResourcesResult.mk described).

(** *** More derived forms *)

(** The result a request records in the cache, if it records one: that
    of a search call with valid arguments or an agent call with a truthy
    prompt, when the upstream call resolves. *)
Definition recorded (env : Env) (rq : Request) : option CachedSearch :=
  match rq with
  | CallTool name args =>
      if name =? "search" then
        if isValidSearchArgs args then
          match http env (HttpPost API_CONFIG.ENDPOINTS.KNOWLEDGE (searchRequest args)) with
          | Resolved r =>
              Some (mkCachedSearch (opt_get args "query") (AxiosResponse.data r) (now env))
          | Rejected _ => None
          end
        else None
      else if name =? "agent" then
        if truthy (opt_get args "prompt") then
          match http env (HttpPost API_CONFIG.ENDPOINTS.AGENT (agentRequest args)) with
          | Resolved r =>
              Some (mkCachedSearch (opt_get args "prompt") (AxiosResponse.data r) (now env))
          | Rejected _ => None
          end
        else None
      else None
  | ReadResource _ => None
  end.

Fixpoint recorded_by (rqs : list (Env * Request)) : list CachedSearch :=
  match rqs with
  | [] => []
  | (env, rq) :: rest =>
      match recorded env rq with
      | Some e => e :: recorded_by rest
      | None => recorded_by rest
      end
  end.

(** The runtime prints the indices below [n] as decimal digits that
    [parseInt] reads back, as JavaScript does for every array index. *)
Definition prints_indices (n : nat) : Prop :=
  forall i, i < n ->
    Number_toString (Z.of_nat i) <> EmptyString /\
    all_digits (Number_toString (Z.of_nat i)) = true /\
    parseInt (Number_toString (Z.of_nat i)) = Z.of_nat i.

(** ** Runs of the handlers *)

Ltac run :=
  unfold handlePing, handleSearch, handleAgent, axios_get, axios_post, axios,
    Date_toISOString, mutate, recentSearches, lift, bind, ret, throw, get;
  simpl.

Lemma opt_get_some (o : Json) (k : string) : opt_get (Some o) k = get_own o k.
Proof. destruct o; reflexivity. Qed.

Lemma handlePing_run env c :
  handlePing env c =
    match http env (HttpGet API_CONFIG.ENDPOINTS.PING) with
    | Resolved r => (c, [HttpGet API_CONFIG.ENDPOINTS.PING],
                     inr (text_result (AxiosResponse.data r)))
    | Rejected e => (c, [HttpGet API_CONFIG.ENDPOINTS.PING], inl (AxiosErr e))
    end.
Proof. run. destruct (http env _); reflexivity. Qed.

Lemma handleSearch_run env c fields :
  let args := Some (JObject fields) in
  let rq := HttpPost API_CONFIG.ENDPOINTS.KNOWLEDGE (searchRequest args) in
  handleSearch args env c =
    match http env rq with
    | Resolved r =>
        (remember (mkCachedSearch (opt_get args "query")
                     (AxiosResponse.data r) (now env)) c,
         [rq], inr (text_result (AxiosResponse.data r)))
    | Rejected e => (c, [rq], inl (AxiosErr e))
    end.
Proof.
  intros args rq. subst args rq. unfold searchRequest, remember. run.
  destruct (http env _); simpl; [|reflexivity].
  destruct (_ <? _)%nat; reflexivity.
Qed.

Lemma handleAgent_run env c o :
  o <> JNull ->
  let args := Some o in
  let rq := HttpPost API_CONFIG.ENDPOINTS.AGENT (agentRequest args) in
  handleAgent args env c =
    match http env rq with
    | Resolved r =>
        (remember (mkCachedSearch (opt_get args "prompt")
                     (AxiosResponse.data r) (now env)) c,
         [rq], inr (text_result (AxiosResponse.data r)))
    | Rejected e => (c, [rq], inl (AxiosErr e))
    end.
Proof.
  intros Ho args rq. subst args rq. unfold agentRequest, remember.
  rewrite !opt_get_some. run.
  destruct o; try congruence; simpl;
    (destruct (http env _); simpl; [|reflexivity]);
    destruct (_ <? _)%nat; reflexivity.
Qed.

Lemma catch_block_axios env c e :
  catch_block (AxiosErr e) env c = (c, [], caught e).
Proof.
  unfold catch_block, caught. run.
  destruct (ToString _); reflexivity.
Qed.

Lemma valid_search_object args :
  isValidSearchArgs args = true -> exists fields, args = Some (JObject fields).
Proof.
  destruct args as [[ | | | | | fields]|]; simpl; try discriminate.
  intros _. now exists fields.
Qed.

Lemma truthy_not_nullish v : truthy v = true -> exists o, v = Some o /\ o <> JNull.
Proof.
  destruct v as [o|]; [|discriminate].
  destruct o; try discriminate; intros _; eexists; split; eauto; discriminate.
Qed.

Lemma truthy_prompt_object args :
  truthy (opt_get args "prompt") = true -> exists fields, args = Some (JObject fields).
Proof.
  destruct args as [[ | | | | | fields]|]; simpl; try discriminate.
  intros _. now exists fields.
Qed.

Lemma callTool_ping env c args :
  callTool "ping" args env c =
    match http env (HttpGet API_CONFIG.ENDPOINTS.PING) with
    | Resolved r => (c, [HttpGet API_CONFIG.ENDPOINTS.PING],
                     inr (text_result (AxiosResponse.data r)))
    | Rejected e => (c, [HttpGet API_CONFIG.ENDPOINTS.PING], caught e)
    end.
Proof.
  unfold callTool, try_catch. simpl. rewrite handlePing_run.
  destruct (http env _); [reflexivity|].
  rewrite catch_block_axios. reflexivity.
Qed.

Lemma callTool_search_invalid env c args :
  isValidSearchArgs args = false ->
  callTool "search" args env c =
    (c, [], inl (McpError InvalidParams "Invalid search arguments")).
Proof.
  intros H. unfold callTool, try_catch. simpl. rewrite H. reflexivity.
Qed.

Lemma callTool_search_valid env c args :
  isValidSearchArgs args = true ->
  let rq := HttpPost API_CONFIG.ENDPOINTS.KNOWLEDGE (searchRequest args) in
  callTool "search" args env c =
    match http env rq with
    | Resolved r =>
        (remember (mkCachedSearch (opt_get args "query")
                     (AxiosResponse.data r) (now env)) c,
         [rq], inr (text_result (AxiosResponse.data r)))
    | Rejected e => (c, [rq], caught e)
    end.
Proof.
  intros H rq. subst rq. destruct (valid_search_object _ H) as [fields ->].
  unfold callTool, try_catch. cbn [String.eqb Ascii.eqb Bool.eqb].
  rewrite H. cbn [negb]. rewrite handleSearch_run.
  destruct (http env _); [reflexivity|].
  rewrite catch_block_axios. reflexivity.
Qed.

Lemma callTool_agent_invalid env c args :
  truthy (opt_get args "prompt") = false ->
  callTool "agent" args env c =
    (c, [], inl (McpError InvalidParams "Missing required 'prompt' parameter")).
Proof.
  intros H. unfold callTool, try_catch. cbn [String.eqb Ascii.eqb Bool.eqb].
  rewrite H. reflexivity.
Qed.

Lemma callTool_agent_valid env c args :
  truthy (opt_get args "prompt") = true ->
  let rq := HttpPost API_CONFIG.ENDPOINTS.AGENT (agentRequest args) in
  callTool "agent" args env c =
    match http env rq with
    | Resolved r =>
        (remember (mkCachedSearch (opt_get args "prompt")
                     (AxiosResponse.data r) (now env)) c,
         [rq], inr (text_result (AxiosResponse.data r)))
    | Rejected e => (c, [rq], caught e)
    end.
Proof.
  intros H rq. subst rq. destruct (truthy_prompt_object _ H) as [fields ->].
  unfold callTool, try_catch. cbn [String.eqb Ascii.eqb Bool.eqb].
  rewrite H. cbn [negb]. rewrite handleAgent_run by discriminate.
  destruct (http env _); [reflexivity|].
  rewrite catch_block_axios. reflexivity.
Qed.

Lemma callTool_unknown env c name args :
  (name =? "ping") = false -> (name =? "search") = false ->
  (name =? "agent") = false ->
  callTool name args env c =
    (c, [], inl (McpError MethodNotFound ("Unknown tool: " ++ name))).
Proof.
  intros H1 H2 H3. unfold callTool, try_catch. rewrite H1, H2, H3. reflexivity.
Qed.

Lemma callTool_outcome env c name args :
  Outcome env c name args (callTool name args env c).
Proof.
  destruct (name =? "ping") eqn:Hping.
  { apply String.eqb_eq in Hping. subst name. rewrite callTool_ping.
    destruct (http env _) eqn:Hr; [now apply ping_answered | now apply upstream_failed]. }
  destruct (name =? "search") eqn:Hsearch.
  { apply String.eqb_eq in Hsearch. subst name.
    destruct (isValidSearchArgs args) eqn:Hv.
    - rewrite callTool_search_valid by assumption.
      destruct (http env _) eqn:Hr.
      + eapply result_cached; [eassumption | now apply search_succeeds].
      + now apply upstream_failed.
    - rewrite callTool_search_invalid by assumption. constructor. }
  destruct (name =? "agent") eqn:Hagent.
  { apply String.eqb_eq in Hagent. subst name.
    destruct (truthy (opt_get args "prompt")) eqn:Hv.
    - rewrite callTool_agent_valid by assumption.
      destruct (http env _) eqn:Hr.
      + eapply result_cached; [eassumption | now apply agent_succeeds].
      + now apply upstream_failed.
    - rewrite callTool_agent_invalid by assumption. constructor. }
  rewrite callTool_unknown by assumption. constructor.
Qed.

Lemma handle_tool env c name args :
  handle (CallTool name args) env c =
    let '(c', made, answer) := callTool name args env c in
    (c', made, tool_answer answer).
Proof.
  unfold handle, bind, ret.
  destruct (callTool name args env c) as [[c' made] [x|r]]; simpl;
    [reflexivity | now rewrite app_nil_r].
Qed.

Lemma handle_succeeds env rq e c :
  Succeeds env rq e ->
  exists sent,
    handle rq env c =
      (remember e c, [sent], inr (ToolResponse (text_result (response e)))).
Proof.
  intros [args r Hv Hr | args r Hv Hr]; rewrite handle_tool.
  - rewrite callTool_search_valid by assumption. cbv zeta. rewrite Hr.
    eexists. reflexivity.
  - rewrite callTool_agent_valid by assumption. cbv zeta. rewrite Hr.
    eexists. reflexivity.
Qed.

(** *** The cache as a bounded most-recent-first buffer *)

Lemma remember_head e c : index_read (remember e c) 0 = Some e.
Proof.
  unfold remember, unshift, pop, index_read. simpl length.
  destruct (_ <? _)%nat eqn:Hlen; [|reflexivity].
  apply Nat.ltb_lt in Hlen. unfold API_CONFIG.MAX_CACHED_SEARCHES in Hlen.
  destruct c as [|x c']; simpl in *; [lia | reflexivity].
Qed.

Lemma remember_firstn e c :
  length c <= 5 -> remember e c = firstn 5 (e :: c).
Proof.
  intros Hc. unfold remember, unshift, pop. simpl length.
  unfold API_CONFIG.MAX_CACHED_SEARCHES.
  destruct (5 <? S (length c))%nat eqn:Hlen.
  - apply Nat.ltb_lt in Hlen. rewrite removelast_firstn_len. simpl length.
    replace (Nat.pred (S (length c))) with 5 by lia. reflexivity.
  - apply Nat.ltb_ge in Hlen. symmetry. apply firstn_all2. simpl. lia.
Qed.

Lemma firstn_app_firstn {A} n (a b : list A) :
  firstn n (a ++ firstn n b) = firstn n (a ++ b).
Proof.
  rewrite !firstn_app, firstn_firstn.
  replace (Nat.min (n - length a) n) with (n - length a) by lia.
  reflexivity.
Qed.

Lemma serve_succeeds calls results c :
  Forall2 (fun call e => Succeeds (fst call) (snd call) e) calls results ->
  length c <= 5 ->
  fst (serve calls c) = firstn 5 (rev results ++ c).
Proof.
  intros H. revert c.
  induction H as [|[env rq] e calls results Hs _ IH]; intros c Hc.
  - cbn [serve fst rev app]. symmetry. now apply firstn_all2.
  - cbn [fst snd] in Hs. destruct (handle_succeeds env rq e c Hs) as [sent Hrun].
    cbn [serve rev]. rewrite Hrun.
    specialize (IH (remember e c)).
    destruct (serve calls (remember e c)) as [c2 answers]. cbn [fst] in *.
    rewrite IH.
    + rewrite remember_firstn by assumption.
      rewrite firstn_app_firstn, <- app_assoc. reflexivity.
    + rewrite remember_firstn by assumption. rewrite length_firstn. lia.
Qed.

Lemma readResource_frame uri env c :
  fst (fst (readResource uri env c)) = c /\ snd (fst (readResource uri env c)) = [].
Proof.
  unfold readResource. destruct (match_search_uri uri); [|now split].
  run. destruct (index_read c _); now split.
Qed.

Lemma serve_length rqs c :
  length c <= 5 -> length (fst (serve rqs c)) <= 5.
Proof.
  revert c. induction rqs as [|[env rq] rest IH]; intros c Hc; [assumption|].
  cbn [serve].
  destruct (handle rq env c) as [[c1 made] answer] eqn:Hrun.
  specialize (IH c1). destruct (serve rest c1) as [c2 answers]. cbn [fst] in *.
  apply IH. destruct rq as [name args | uri].
  - rewrite handle_tool in Hrun.
    pose proof (callTool_outcome env c name args) as Hout.
    destruct (callTool name args env c) as [[c' made'] answer'].
    injection Hrun as <- _ _.
    inversion Hout; subst; try assumption.
    rewrite remember_firstn by assumption. rewrite length_firstn. lia.
  - unfold handle, bind, ret in Hrun.
    pose proof (readResource_frame uri env c) as [Hc1 _].
    destruct (readResource uri env c) as [[c' made'] [x|r]];
      cbn [fst] in Hc1; injection Hrun as <- _ _; subst; assumption.
Qed.

(** ** The claims *)

(** C1.  Starting from the empty array of a fresh server, after any
    sequence of successful search and agent calls the cache holds at
    most 5 entries and is the list of results, newest first, cut after
    the fifth; after more than 5 calls it holds exactly 5 entries, the
    5 latest results in reverse order of arrival. *)
Theorem recent_results_newest_first calls results :
  Forall2 (fun call e => Succeeds (fst call) (snd call) e) calls results ->
  let cache := fst (serve calls initial_cache) in
  length cache <= 5 /\
  cache = firstn 5 (rev results) /\
  (5 < length calls ->
   length cache = 5 /\ cache = rev (skipn (length results - 5) results)).
Proof.
  intros H cache.
  assert (Hcache : cache = firstn 5 (rev results)).
  { subst cache. rewrite (serve_succeeds calls results) by (assumption || (simpl; lia)).
    unfold initial_cache. now rewrite app_nil_r. }
  repeat split.
  - rewrite Hcache, length_firstn. lia.
  - exact Hcache.
  - rewrite Hcache, length_firstn, length_rev.
    apply Forall2_length in H. lia.
  - rewrite Hcache. apply firstn_rev.
Qed.

(** C8.  From any cache, once a successful search or agent call has
    recorded its result, index 0 holds exactly that entry (the query
    and the upstream payload as they came, stamped with the time of the
    call) and reading resource 0 returns that payload serialized. *)
Theorem record_then_get_first env rq e c :
  Succeeds env rq e ->
  let c' := fst (fst (handle rq env c)) in
  index_read c' 0 = Some e /\
  forall env',
    readResource "brianknows://searches/0" env' c' =
      (c', [],
       inr (ReadResult.mk
              [ResourceContents.mk "brianknows://searches/0" "application/json"
                 (JSON_stringify (response e))])).
Proof.
  intros Hs c'. destruct (handle_succeeds env rq e c Hs) as [sent Hrun].
  subst c'. rewrite Hrun. cbn [fst]. split; [apply remember_head|].
  intros env'. unfold readResource. cbn [match_search_uri].
  change (match_search_uri "brianknows://searches/0") with (Some "0").
  change (parseInt "0") with 0%Z.
  run. rewrite remember_head. reflexivity.
Qed.

(** C7.  A ping whose upstream call resolves answers with the upstream
    payload serialized, makes that one GET and leaves the cache as it
    was. *)
Theorem ping_echoes_without_caching env c args r :
  http env (HttpGet API_CONFIG.ENDPOINTS.PING) = Resolved r ->
  callTool "ping" args env c =
    (c, [HttpGet "/api/v0/utils/ping"],
     inr (ToolResult.mk
            [TextContent.mk "text" (JSON_stringify (AxiosResponse.data r))]
            None)).
Proof.
  intros Hr. rewrite callTool_ping, Hr. reflexivity.
Qed.

Lemma isValidSearchArgs_true args :
  isValidSearchArgs args = true ->
  typeof (opt_get args "query") = "string" /\
  (opt_get args "kb" = None \/ typeof (opt_get args "kb") = "string") /\
  (opt_get args "numResults" = None \/ typeof (opt_get args "numResults") = "number").
Proof.
  intros H. destruct (valid_search_object _ H) as [fields ->].
  unfold isValidSearchArgs in H. rewrite !opt_get_some.
  repeat (apply andb_prop in H; destruct H as [H ?]).
  repeat split.
  - now apply String.eqb_eq.
  - destruct (get_own _ "kb"); [right | now left].
    match goal with K : (is_undefined _ || _)%bool = true |- _ =>
      simpl in K; now apply String.eqb_eq in K end.
  - destruct (get_own _ "numResults"); [right | now left].
    match goal with K : (is_undefined _ || _)%bool = true |- _ =>
      simpl in K; now apply String.eqb_eq in K end.
Qed.

(** C6.  A search call whose [query] is missing or not a string, or
    whose [kb] is present and not a string, or whose [numResults] is
    present and not a number, is rejected with [InvalidParams]; no HTTP
    request is made and the cache is left as it was. *)
Theorem invalid_search_arguments_rejected env c args :
  typeof (opt_get args "query") <> "string" \/
  (exists v, opt_get args "kb" = Some v /\ typeof (Some v) <> "string") \/
  (exists v, opt_get args "numResults" = Some v /\ typeof (Some v) <> "number") ->
  callTool "search" args env c =
    (c, [], inl (McpError InvalidParams "Invalid search arguments")).
Proof.
  intros Hbad. apply callTool_search_invalid.
  destruct (isValidSearchArgs args) eqn:Hv; [exfalso | reflexivity].
  apply isValidSearchArgs_true in Hv. destruct Hv as (Hq & Hkb & Hn).
  destruct Hbad as [Hbad | [(v & Hv & Hbad) | (v & Hv & Hbad)]].
  - contradiction.
  - rewrite Hv in Hkb. destruct Hkb; [discriminate | contradiction].
  - rewrite Hv in Hn. destruct Hn; [discriminate | contradiction].
Qed.

(** C9.  The agent branch validates by the truthiness of [prompt] and
    nothing else: a falsy prompt (the empty string for one) is rejected
    with [InvalidParams] before any HTTP request or cache change, and a
    truthy prompt of any type (a non-zero number for one) goes upstream
    as the [prompt] of the request body. *)
Theorem agent_validation_is_truthiness env c args :
  (truthy (opt_get args "prompt") = false ->
   callTool "agent" args env c =
     (c, [], inl (McpError InvalidParams "Missing required 'prompt' parameter"))) /\
  (truthy (opt_get args "prompt") = true ->
   exists c' answer others,
     callTool "agent" args env c =
       (c', [HttpPost "/api/v0/agent" (("prompt", opt_get args "prompt") :: others)],
        answer)) /\
  (opt_get args "prompt" = Some (JString EmptyString) ->
   callTool "agent" args env c =
     (c, [], inl (McpError InvalidParams "Missing required 'prompt' parameter"))) /\
  (forall n, n <> 0%Z -> opt_get args "prompt" = Some (JNumber n) ->
   exists c' answer others,
     callTool "agent" args env c =
       (c', [HttpPost "/api/v0/agent" (("prompt", Some (JNumber n)) :: others)],
        answer)).
Proof.
  assert (Hpass : truthy (opt_get args "prompt") = true ->
    exists c' answer others,
      callTool "agent" args env c =
        (c', [HttpPost "/api/v0/agent" (("prompt", opt_get args "prompt") :: others)],
         answer)).
  { intros H. rewrite callTool_agent_valid by assumption. cbv zeta.
    unfold agentRequest. destruct (http env _); do 3 eexists; reflexivity. }
  repeat split.
  - apply callTool_agent_invalid.
  - exact Hpass.
  - intros H. apply callTool_agent_invalid. now rewrite H.
  - intros n Hn H. rewrite <- H. apply Hpass. rewrite H. simpl.
    apply Z.eqb_neq in Hn. now rewrite Hn.
Qed.

(** C10.  A search or agent call leaves the cache untouched when the
    HTTP request it made was rejected; the cache differs after the call
    only if the request resolved. *)
Theorem failed_upstream_leaves_cache name args env c c' made answer :
  name = "search" \/ name = "agent" ->
  callTool name args env c = (c', made, answer) ->
  (forall rq e, In rq made -> http env rq = Rejected e -> c' = c) /\
  (c' <> c -> exists rq r, made = [rq] /\ http env rq = Resolved r).
Proof.
  intros _ Hrun. pose proof (callTool_outcome env c name args) as Hout.
  rewrite Hrun in Hout. inversion Hout; subst; split; try congruence.
  - intros rq0 e0 [<- | []] Hrej. congruence.
  - intros _. eauto.
Qed.

(** X15.  Whatever the tool, when the HTTP request a call made was
    rejected, the cache is as before and exactly that one request was
    made.  When there was no response, or the body of the response has
    no [error] or a [null] one, the handler returns normally with an
    [isError] result whose text carries the message of the axios error;
    when the body has an [error] string, the text carries that string;
    and so for any other [error] value that has a string form.  The
    server goes on to serve what follows from the same cache. *)
Theorem upstream_failure_is_tool_error name args env c c' made answer rq e :
  callTool name args env c = (c', made, answer) ->
  In rq made ->
  http env rq = Rejected e ->
  c' = c /\ made = [rq] /\
  (AxiosError.response e = None ->
   answer = inr (ToolResult.mk
                   [TextContent.mk "text" ("Brian API error: " ++ AxiosError.message e)]
                   (Some true))) /\
  (forall r,
     AxiosError.response e = Some r ->
     get_own (AxiosResponse.data r) "error" = None \/
     get_own (AxiosResponse.data r) "error" = Some JNull ->
     answer = inr (ToolResult.mk
                     [TextContent.mk "text" ("Brian API error: " ++ AxiosError.message e)]
                     (Some true))) /\
  (forall r m,
     AxiosError.response e = Some r ->
     get_own (AxiosResponse.data r) "error" = Some (JString m) ->
     answer = inr (ToolResult.mk
                     [TextContent.mk "text" ("Brian API error: " ++ m)]
                     (Some true))) /\
  (forall r v m,
     AxiosError.response e = Some r ->
     get_own (AxiosResponse.data r) "error" = Some v -> v <> JNull ->
     ToString (Some v) = inr m ->
     answer = inr (ToolResult.mk
                     [TextContent.mk "text" ("Brian API error: " ++ m)]
                     (Some true))) /\
  (forall rest,
     serve ((env, CallTool name args) :: rest) c =
       (fst (serve rest c), (made, tool_answer answer) :: snd (serve rest c))).
Proof.
  intros Hrun Hin Hrej.
  pose proof (callTool_outcome env c name args) as Hout.
  rewrite Hrun in Hout.
  assert (Hserve : c' = c -> forall rest,
     serve ((env, CallTool name args) :: rest) c =
       (fst (serve rest c), (made, tool_answer answer) :: snd (serve rest c))).
  { intros -> rest. cbn [serve]. rewrite handle_tool, Hrun.
    destruct (serve rest c); reflexivity. }
  inversion Hout; subst.
  - destruct Hin.
  - destruct Hin as [<- | []].
    assert (e0 = e) by congruence. subst e0.
    split; [reflexivity|]. split; [reflexivity|].
    split; [|split; [|split; [|split]]].
    + intros Hnone. unfold caught, upstream_error. rewrite Hnone. reflexivity.
    + intros r Hr Hnull. unfold caught, upstream_error.
      rewrite Hr, opt_get_some. destruct Hnull as [-> | ->]; reflexivity.
    + intros r m Hr Hm. unfold caught, upstream_error.
      rewrite Hr, opt_get_some, Hm. reflexivity.
    + intros r v m Hr Hv Hnn Hm. unfold caught, upstream_error, js_coalesce.
      rewrite Hr, opt_get_some, Hv.
      replace (nullish (Some v)) with false by (destruct v; congruence || reflexivity).
      rewrite Hm. reflexivity.
    + now apply Hserve.
  - destruct Hin as [<- | []]. congruence.
  - destruct Hin as [<- | []]. congruence.
Qed.

Lemma callTool_search_made env c args :
  isValidSearchArgs args = true ->
  snd (fst (callTool "search" args env c)) =
    [HttpPost API_CONFIG.ENDPOINTS.KNOWLEDGE (searchRequest args)].
Proof.
  intros H. rewrite callTool_search_valid by assumption. cbv zeta.
  destruct (http env _); reflexivity.
Qed.

Lemma callTool_agent_made env c args :
  truthy (opt_get args "prompt") = true ->
  snd (fst (callTool "agent" args env c)) =
    [HttpPost API_CONFIG.ENDPOINTS.AGENT (agentRequest args)].
Proof.
  intros H. rewrite callTool_agent_valid by assumption. cbv zeta.
  destruct (http env _); reflexivity.
Qed.

(** C5.  A search call with valid arguments makes one POST to the
    knowledge endpoint whose body has the two keys [prompt], the query
    string, and [kb], the supplied [kb] or else the default knowledge
    box: a supplied non-empty [kb] goes as it is, and the default goes
    when [kb] is absent or empty.  A [numResults] number passes
    validation and changes nothing in the request. *)
Theorem search_request_body env c args :
  isValidSearchArgs args = true ->
  (exists q,
     opt_get args "query" = Some (JString q) /\
     snd (fst (callTool "search" args env c)) =
       [HttpPost "/api/v0/agent/knowledge"
          [("prompt", Some (JString q));
           ("kb", js_or (opt_get args "kb") (Some (JString "public-knowledge-box")))]]) /\
  (forall fields n,
     args = Some (JObject fields) ->
     let args' := Some (JObject (("numResults", JNumber n) :: fields)) in
     isValidSearchArgs args' = true /\
     snd (fst (callTool "search" args' env c)) =
       snd (fst (callTool "search" args env c))) /\
  (forall q,
     opt_get args "query" = Some (JString q) ->
     (opt_get args "kb" = None ->
      snd (fst (callTool "search" args env c)) =
        [HttpPost "/api/v0/agent/knowledge"
           [("prompt", Some (JString q));
            ("kb", Some (JString "public-knowledge-box"))]]) /\
     (forall k,
        opt_get args "kb" = Some (JString k) -> k <> EmptyString ->
        snd (fst (callTool "search" args env c)) =
          [HttpPost "/api/v0/agent/knowledge"
             [("prompt", Some (JString q)); ("kb", Some (JString k))]]) /\
     (opt_get args "kb" = Some (JString EmptyString) ->
      snd (fst (callTool "search" args env c)) =
        [HttpPost "/api/v0/agent/knowledge"
           [("prompt", Some (JString q));
            ("kb", Some (JString "public-knowledge-box"))]])).
Proof.
  intros H. split; [|split]; cycle 2.
  { intros q Hq. rewrite callTool_search_made by assumption.
    unfold searchRequest. rewrite Hq. repeat split.
    - intros ->. reflexivity.
    - intros k -> Hk. destruct k; [contradiction | reflexivity].
    - intros ->. reflexivity. }
  - pose proof (isValidSearchArgs_true _ H) as (Hq & _ & _).
    destruct (opt_get args "query") as [[ | | | q | | ]|] eqn:Eq; try discriminate.
    exists q. split; [reflexivity|].
    rewrite callTool_search_made by assumption.
    unfold searchRequest. rewrite Eq. reflexivity.
  - intros fields n -> args'.
    assert (H' : isValidSearchArgs args' = true).
    { subst args'. unfold isValidSearchArgs in *. cbn in *.
      repeat (apply andb_prop in H; destruct H as [H ?]).
      repeat (apply andb_true_intro; split); assumption || reflexivity. }
    split; [exact H'|].
    rewrite !callTool_search_made by assumption. reflexivity.
Qed.

(** C4 (amended).  An agent call that passes validation makes one POST
    to the agent endpoint whose body is [prompt]; [address], the
    supplied address when it is truthy and the all-zero address
    otherwise; [chainId] as supplied, [undefined] (so absent on the
    wire) when not given; [kbId], the supplied one when it is truthy
    and the default knowledge box otherwise.  With only [prompt]
    supplied the wire body is prompt, zero address and default
    knowledge box; a supplied truthy [address] or [kbId] (a non-empty
    string for one) is forwarded as it is. *)
Theorem agent_request_body env c args :
  truthy (opt_get args "prompt") = true ->
  let zero := JString "0x0000000000000000000000000000000000000000" in
  let default_kb := JString "public-knowledge-box" in
  let body :=
    [("prompt", opt_get args "prompt");
     ("address", js_or (opt_get args "address") (Some zero));
     ("chainId", opt_get args "chainId");
     ("kbId", js_or (opt_get args "kbId") (Some default_kb))] in
  snd (fst (callTool "agent" args env c)) = [HttpPost "/api/v0/agent" body] /\
  (forall p, opt_get args "prompt" = Some p ->
     opt_get args "address" = None -> opt_get args "chainId" = None ->
     opt_get args "kbId" = None ->
     wire body = JObject [("prompt", p); ("address", zero); ("kbId", default_kb)]) /\
  (forall a, opt_get args "address" = Some a -> truthy (Some a) = true ->
     assoc_body "address" body = Some (Some a)) /\
  (forall k, opt_get args "kbId" = Some k -> truthy (Some k) = true ->
     assoc_body "kbId" body = Some (Some k)).
Proof.
  intros H zero default_kb body. repeat split.
  - now rewrite callTool_agent_made by assumption.
  - intros p Hp Ha Hc Hk. subst body. now rewrite Hp, Ha, Hc, Hk.
  - intros a Ha Ht. subst body. cbn. unfold js_or. now rewrite Ha, Ht.
  - intros k Hk Ht. subst body. cbn. unfold js_or. now rewrite Hk, Ht.
Qed.

(** *** Resource addresses *)

Lemma strip_prefix_spec p s r : strip_prefix p s = Some r <-> s = p ++ r.
Proof.
  revert s. induction p as [|a p IH]; intros s; simpl.
  - split; [now intros [= ->] | now intros ->].
  - destruct s as [|b s]; [split; discriminate|].
    destruct (Ascii.eqb a b) eqn:Hab.
    + apply Ascii.eqb_eq in Hab. subst b. rewrite IH.
      split; [now intros -> | now intros [= ->]].
    + apply Ascii.eqb_neq in Hab. split; [discriminate | intros [= <- _]; contradiction].
Qed.

Lemma match_search_uri_spec uri digits :
  match_search_uri uri = Some digits <->
  uri = "brianknows://searches/" ++ digits /\
  digits <> EmptyString /\ all_digits digits = true.
Proof.
  unfold match_search_uri.
  destruct (strip_prefix "brianknows://searches/" uri) as [rest|] eqn:Hp.
  - apply strip_prefix_spec in Hp. split.
    + destruct rest as [|ch rest']; [discriminate|].
      destruct (all_digits (String ch rest')) eqn:Hd; [|discriminate].
      intros [= <-]. repeat split; [assumption | discriminate | assumption].
    + intros (Hu & Hne & Hd). rewrite Hu in Hp.
      assert (rest = digits) as ->.
      { clear -Hp. simpl in Hp. now injection Hp. }
      destruct digits; [contradiction|]. now rewrite Hd.
  - split; [discriminate|]. intros (Hu & _ & _).
    apply strip_prefix_spec in Hu. congruence.
Qed.

Lemma digit_value_nonneg ch : is_digit ch = true -> (0 <= digit_value ch)%Z.
Proof.
  unfold is_digit, digit_value. intros H. apply andb_prop in H as [H _].
  apply Nat.leb_le in H. lia.
Qed.

Lemma parseInt_from_nonneg s acc :
  all_digits s = true -> (0 <= acc)%Z -> (0 <= parseInt_from acc s)%Z.
Proof.
  revert acc. induction s as [|ch s IH]; intros acc Hd Hacc; simpl in *; [assumption|].
  apply andb_prop in Hd as [Hc Hd]. apply IH; [assumption|].
  pose proof (digit_value_nonneg ch Hc). lia.
Qed.

Lemma parseInt_from_uint d acc :
  parseInt_from (Z.of_nat acc) (NilEmpty.string_of_uint d) =
    Z.of_nat (Nat.of_uint_acc d acc).
Proof.
  revert acc.
  induction d as [|d IH|d IH|d IH|d IH|d IH|d IH|d IH|d IH|d IH|d IH]; intros acc;
    cbn [NilEmpty.string_of_uint parseInt_from Nat.of_uint_acc];
    [reflexivity|..];
    rewrite <- IH; f_equal; rewrite Nat.tail_mul_spec;
    change (digit_value "0") with 0%Z; change (digit_value "1") with 1%Z;
    change (digit_value "2") with 2%Z; change (digit_value "3") with 3%Z;
    change (digit_value "4") with 4%Z; change (digit_value "5") with 5%Z;
    change (digit_value "6") with 6%Z; change (digit_value "7") with 7%Z;
    change (digit_value "8") with 8%Z; change (digit_value "9") with 9%Z;
    lia.
Qed.

Lemma all_digits_uint d : all_digits (NilEmpty.string_of_uint d) = true.
Proof.
  induction d; cbn [NilEmpty.string_of_uint all_digits]; try reflexivity;
    rewrite IHd; reflexivity.
Qed.

Lemma parseInt_decimal n : parseInt (decimal n) = Z.of_nat n.
Proof.
  unfold parseInt, decimal. change 0%Z with (Z.of_nat 0).
  rewrite parseInt_from_uint. f_equal. apply (DecimalNat.Unsigned.of_to n).
Qed.

Lemma decimal_nonempty n : decimal n <> EmptyString.
Proof.
  unfold decimal. intros H.
  assert (Hnil : Nat.to_uint n = Decimal.Nil).
  { destruct (Nat.to_uint n); [reflexivity | discriminate..]. }
  pose proof (DecimalNat.Unsigned.of_to n) as Hn. rewrite Hnil in Hn.
  cbn in Hn. subst n. discriminate.
Qed.

Lemma match_search_uri_decimal n :
  match_search_uri ("brianknows://searches/" ++ decimal n) = Some (decimal n).
Proof.
  apply match_search_uri_spec. split; [reflexivity|]. split.
  - apply decimal_nonempty.
  - apply all_digits_uint.
Qed.

(** C2.  The read handler is total.  An address matches exactly when it
    is [brianknows://searches/] followed by one or more decimal digits.
    An address that does not match, or whose number is at or beyond the
    length of the cache, is answered with an [InvalidRequest] error
    (never another exception); the cache is unchanged and no HTTP
    request is made.  Otherwise the answer is the [response] of the
    entry at that index, serialized, as the text of the one content
    item.  In particular the address written with the decimal numeral
    of [i] reads entry [i] of the cache, and is not found when the cache
    has no entry [i]. *)
Theorem read_resource_by_position uri env c :
  (forall digits,
     match_search_uri uri = Some digits <->
     uri = "brianknows://searches/" ++ digits /\
     digits <> EmptyString /\ all_digits digits = true) /\
  (match_search_uri uri = None ->
   readResource uri env c =
     (c, [], inl (McpError InvalidRequest ("Unknown resource: " ++ uri)))) /\
  (forall digits,
     match_search_uri uri = Some digits ->
     (Z.of_nat (length c) <= parseInt digits)%Z ->
     readResource uri env c =
       (c, [], inl (McpError InvalidRequest
                      ("Search result not found: "
                       ++ Number_toString (parseInt digits))))) /\
  (forall digits,
     match_search_uri uri = Some digits ->
     (parseInt digits < Z.of_nat (length c))%Z ->
     exists search,
       nth_error c (Z.to_nat (parseInt digits)) = Some search /\
       readResource uri env c =
         (c, [], inr (ReadResult.mk
                        [ResourceContents.mk uri "application/json"
                           (JSON_stringify (response search))]))) /\
  (forall i,
     readResource ("brianknows://searches/" ++ decimal i) env c =
       match nth_error c i with
       | Some search =>
           (c, [], inr (ReadResult.mk
                          [ResourceContents.mk ("brianknows://searches/" ++ decimal i)
                             "application/json"
                             (JSON_stringify (response search))]))
       | None =>
           (c, [], inl (McpError InvalidRequest
                          ("Search result not found: "
                           ++ Number_toString (Z.of_nat i))))
       end).
Proof.
  split; [intros digits; apply match_search_uri_spec|].
  split; [|split; [|split]]; cycle 3.
  { intros i. unfold readResource. rewrite match_search_uri_decimal. run.
    unfold index_read. rewrite parseInt_decimal, Nat2Z.id.
    destruct (nth_error c i); reflexivity. }
  - intros Hm. unfold readResource. rewrite Hm. reflexivity.
  - intros digits Hm Hlen. unfold readResource. rewrite Hm. run.
    unfold index_read.
    destruct (nth_error c (Z.to_nat (parseInt digits))) eqn:Hn; [|reflexivity].
    exfalso. assert (Hlt : Z.to_nat (parseInt digits) < length c).
    { apply nth_error_Some. congruence. }
    lia.
  - intros digits Hm Hlen. unfold readResource. rewrite Hm. run.
    unfold index_read.
    apply match_search_uri_spec in Hm as (_ & _ & Hd).
    pose proof (parseInt_from_nonneg digits 0 Hd (Z.le_refl 0)) as Hpos.
    fold (parseInt digits) in Hpos.
    destruct (nth_error c (Z.to_nat (parseInt digits))) as [search|] eqn:Hn.
    + exists search. split; reflexivity.
    + exfalso. apply nth_error_None in Hn. lia.
Qed.

(** ** Further properties of the handlers *)

(** *** What a run leaves in the cache *)

Lemma recorded_iff_Succeeds env rq e : recorded env rq = Some e <-> Succeeds env rq e.
Proof.
  split.
  - destruct rq as [name args | uri]; cbn [recorded]; [|discriminate].
    destruct (name =? "search") eqn:Hs.
    { apply String.eqb_eq in Hs. subst name.
      destruct (isValidSearchArgs args) eqn:Hv; [|discriminate].
      destruct (http env _) eqn:Hr; [|discriminate].
      intros [= <-]. now apply search_succeeds. }
    destruct (name =? "agent") eqn:Ha; [|discriminate].
    apply String.eqb_eq in Ha. subst name.
    destruct (truthy (opt_get args "prompt")) eqn:Hv; [|discriminate].
    destruct (http env _) eqn:Hr; [|discriminate].
    intros [= <-]. now apply agent_succeeds.
  - intros [args r Hv Hr | args r Hv Hr]; cbn [recorded String.eqb Ascii.eqb Bool.eqb];
      now rewrite Hv, Hr.
Qed.

Lemma handle_not_recorded env rq c :
  recorded env rq = None -> fst (fst (handle rq env c)) = c.
Proof.
  intros Hnone. destruct rq as [name args | uri].
  - rewrite handle_tool.
    pose proof (callTool_outcome env c name args) as Hout.
    destruct (callTool name args env c) as [[c' made] answer]. cbn [fst].
    inversion Hout; subst; try reflexivity.
    match goal with H : Succeeds _ _ _ |- _ => apply recorded_iff_Succeeds in H end.
    congruence.
  - unfold handle, bind, ret.
    pose proof (readResource_frame uri env c) as [Hc _].
    destruct (readResource uri env c) as [[c' made] [x|r]]; exact Hc.
Qed.

(** X1.  Whatever the requests (tool calls that succeed, fail or are
    rejected, pings, unknown tools, resource reads), a cache of at most 5
    entries becomes the results recorded by the run, newest first,
    followed by the old entries, cut after the fifth.  Only a search or
    agent call whose upstream call resolved contributes. *)
Theorem cache_after_any_run rqs c :
  length c <= 5 ->
  fst (serve rqs c) = firstn 5 (rev (recorded_by rqs) ++ c) /\
  length (fst (serve rqs c)) <= 5.
Proof.
  intros Hc. split; [|now apply serve_length].
  revert c Hc. induction rqs as [|[env rq] rest IH]; intros c Hc.
  - cbn [serve recorded_by fst rev app]. symmetry. now apply firstn_all2.
  - cbn [serve recorded_by].
    destruct (recorded env rq) as [e|] eqn:Hrec.
    + apply recorded_iff_Succeeds in Hrec.
      destruct (handle_succeeds env rq e c Hrec) as [sent Hrun]. rewrite Hrun.
      specialize (IH (remember e c)).
      destruct (serve rest (remember e c)) as [c2 answers]. cbn [fst] in *.
      rewrite IH.
      * rewrite remember_firstn by assumption. cbn [rev].
        rewrite firstn_app_firstn, <- app_assoc. reflexivity.
      * rewrite remember_firstn by assumption. rewrite length_firstn. lia.
    + pose proof (handle_not_recorded env rq c Hrec) as Hsame.
      destruct (handle rq env c) as [[c1 made] answer]. cbn [fst] in Hsame. subst c1.
      specialize (IH c Hc).
      destruct (serve rest c) as [c2 answers]. exact IH.
Qed.

(** X2.  A successful search or agent call moves every entry one
    position down: what was at position [i] is at [i + 1] afterwards, as
    long as that is below 5, and nothing is at position 5 or beyond; the
    entry that was at position 4 is gone. *)
Theorem record_shifts_positions env rq e c :
  Succeeds env rq e ->
  length c <= 5 ->
  let c' := fst (fst (handle rq env c)) in
  (forall i, S i < 5 -> nth_error c' (S i) = nth_error c i) /\
  (forall i, 5 <= i -> nth_error c' i = None).
Proof.
  intros Hs Hc c'. destruct (handle_succeeds env rq e c Hs) as [sent Hrun].
  subst c'. rewrite Hrun. cbn [fst]. rewrite remember_firstn by assumption. split.
  - intros i Hi. rewrite nth_error_firstn.
    destruct (S i <? 5)%nat eqn:Hlt; [reflexivity|].
    apply Nat.ltb_ge in Hlt. lia.
  - intros i Hi. apply nth_error_None. rewrite length_firstn. lia.
Qed.

(** X3.  After a successful search or agent call, the text the tool
    returned is the text that reading resource 0 returns, and the query
    of the entry at position 0 is the [prompt] that went upstream. *)
Theorem recorded_matches_exchange env rq e c :
  Succeeds env rq e ->
  exists c' url body text,
    handle rq env c =
      (c', [HttpPost url body],
       inr (ToolResponse (ToolResult.mk [TextContent.mk "text" text] None))) /\
    assoc_body "prompt" body = Some (query e) /\
    nth_error c' 0 = Some e /\
    forall env',
      readResource "brianknows://searches/0" env' c' =
        (c', [],
         inr (ReadResult.mk
                [ResourceContents.mk "brianknows://searches/0" "application/json" text])).
Proof.
  intros Hs.
  assert (Hread : forall env',
    readResource "brianknows://searches/0" env' (remember e c) =
      (remember e c, [],
       inr (ReadResult.mk
              [ResourceContents.mk "brianknows://searches/0" "application/json"
                 (JSON_stringify (response e))]))).
  { intros env'. unfold readResource.
    change (match_search_uri "brianknows://searches/0") with (Some "0").
    change (parseInt "0") with 0%Z.
    run. rewrite remember_head. reflexivity. }
  pose proof (remember_head e c) as Hhead. unfold index_read in Hhead.
  change (Z.to_nat 0) with 0 in Hhead.
  destruct Hs as [args r Hv Hr | args r Hv Hr]; rewrite handle_tool.
  - rewrite callTool_search_valid by assumption. cbv zeta. rewrite Hr.
    do 4 eexists. split; [reflexivity|]. repeat split; [exact Hhead | exact Hread].
  - rewrite callTool_agent_valid by assumption. cbv zeta. rewrite Hr.
    do 4 eexists. split; [reflexivity|]. repeat split; [exact Hhead | exact Hread].
Qed.

(** X4.  A tool call makes at most one HTTP request, and which one is
    fixed by the tool name: a GET of the ping endpoint for [ping], a POST
    to the knowledge endpoint for [search], a POST to the agent endpoint
    for [agent]; no other name reaches the upstream service. *)
Theorem one_request_per_call name args env c :
  let made := snd (fst (callTool name args env c)) in
  made = [] \/
  (name = "ping" /\ made = [HttpGet "/api/v0/utils/ping"]) \/
  (name = "search" /\ exists body, made = [HttpPost "/api/v0/agent/knowledge" body]) \/
  (name = "agent" /\ exists body, made = [HttpPost "/api/v0/agent" body]).
Proof.
  cbv zeta.
  destruct (name =? "ping") eqn:Hping.
  { apply String.eqb_eq in Hping. subst name. right. left. split; [reflexivity|].
    rewrite callTool_ping. destruct (http env _); reflexivity. }
  destruct (name =? "search") eqn:Hsearch.
  { apply String.eqb_eq in Hsearch. subst name.
    destruct (isValidSearchArgs args) eqn:Hv.
    - right. right. left. split; [reflexivity|].
      rewrite callTool_search_made by assumption. eexists. reflexivity.
    - left. now rewrite callTool_search_invalid. }
  destruct (name =? "agent") eqn:Hagent.
  { apply String.eqb_eq in Hagent. subst name.
    destruct (truthy (opt_get args "prompt")) eqn:Hv.
    - right. right. right. split; [reflexivity|].
      rewrite callTool_agent_made by assumption. eexists. reflexivity.
    - left. now rewrite callTool_agent_invalid. }
  left. now rewrite callTool_unknown.
Qed.

(** *** The advertised tools and the dispatcher *)

Lemma advertised_names name :
  In name advertised <-> name = "ping" \/ name = "search" \/ name = "agent".
Proof.
  unfold advertised. cbn. intuition congruence.
Qed.

Lemma caught_not_McpError e code msg : caught e <> inl (McpError code msg).
Proof.
  unfold caught.
  destruct (js_coalesce _ _) as [[ | [|] | n | str | elems | fields]|]; cbn;
    try discriminate;
    destruct (Object_toString _); discriminate.
Qed.

(** X5.  The dispatcher handles exactly the tools that the list-tools
    handler advertises.  A name that is not advertised is answered with
    [MethodNotFound], without an HTTP request or a change of the cache; a
    call of an advertised tool never throws an [McpError] other than
    [InvalidParams]. *)
Theorem dispatcher_matches_advertised_tools name args env c :
  (~ In name advertised ->
   callTool name args env c =
     (c, [], inl (McpError MethodNotFound ("Unknown tool: " ++ name)))) /\
  (In name advertised ->
   forall code msg,
     snd (callTool name args env c) = inl (McpError code msg) -> code = InvalidParams).
Proof.
  split.
  - intros Hnot. apply callTool_unknown.
    + destruct (name =? "ping") eqn:H; [|reflexivity].
      apply String.eqb_eq in H. exfalso. apply Hnot, advertised_names. auto.
    + destruct (name =? "search") eqn:H; [|reflexivity].
      apply String.eqb_eq in H. exfalso. apply Hnot, advertised_names. auto.
    + destruct (name =? "agent") eqn:H; [|reflexivity].
      apply String.eqb_eq in H. exfalso. apply Hnot, advertised_names. auto.
  - intros Hin code msg. apply advertised_names in Hin.
    destruct Hin as [-> | [-> | ->]].
    + rewrite callTool_ping. destruct (http env _); cbn [snd]; [discriminate|].
      intros H. now apply caught_not_McpError in H.
    + destruct (isValidSearchArgs args) eqn:Hv.
      * rewrite callTool_search_valid by assumption. cbv zeta.
        destruct (http env _); cbn [snd]; [discriminate|].
        intros H. now apply caught_not_McpError in H.
      * rewrite callTool_search_invalid by assumption. cbn [snd]. congruence.
    + destruct (truthy (opt_get args "prompt")) eqn:Hv.
      * rewrite callTool_agent_valid by assumption. cbv zeta.
        destruct (http env _); cbn [snd]; [discriminate|].
        intros H. now apply caught_not_McpError in H.
      * rewrite callTool_agent_invalid by assumption. cbn [snd]. congruence.
Qed.

(** X6.  Every field that the advertised schema of a tool lists under
    [required] is enforced by the dispatcher: a call whose arguments lack
    it is rejected with [InvalidParams], without an HTTP request or a
    change of the cache. *)
Theorem required_fields_enforced t k args env c :
  In t (ListToolsResult.tools listTools) ->
  In k (InputSchema.required (Tool.inputSchema t)) ->
  opt_get args k = None ->
  exists msg,
    callTool (Tool.name t) args env c = (c, [], inl (McpError InvalidParams msg)).
Proof.
  intros Ht Hk Hmissing. cbn in Ht.
  destruct Ht as [<- | [<- | [<- | []]]]; cbn in Hk.
  - destruct Hk.
  - destruct Hk as [<- | []]. eexists. apply callTool_search_invalid.
    destruct (isValidSearchArgs args) eqn:Hv; [|reflexivity].
    apply isValidSearchArgs_true in Hv as (Hq & _). rewrite Hmissing in Hq. discriminate.
  - destruct Hk as [<- | []]. eexists. apply callTool_agent_invalid.
    now rewrite Hmissing.
Qed.

(** *** What reaches the upstream service *)

(** X7.  The body of a knowledge request is well typed whatever the
    valid arguments: [prompt] is a string and [kb] is a non-empty string
    (an empty [kb] is replaced by the default knowledge box). *)
Theorem search_body_well_typed env c args :
  isValidSearchArgs args = true ->
  exists q k,
    k <> EmptyString /\
    snd (fst (callTool "search" args env c)) =
      [HttpPost "/api/v0/agent/knowledge"
         [("prompt", Some (JString q)); ("kb", Some (JString k))]].
Proof.
  intros H. rewrite callTool_search_made by assumption.
  pose proof (isValidSearchArgs_true _ H) as (Hq & Hkb & _).
  unfold searchRequest.
  destruct (opt_get args "query") as [[ | | | q | | ]|]; try discriminate.
  exists q.
  destruct Hkb as [Hkb | Hkb].
  - rewrite Hkb. eexists. split; [|reflexivity]. discriminate.
  - destruct (opt_get args "kb") as [[ | | | k | | ]|]; try discriminate.
    destruct k as [|ch k'].
    + eexists. split; [|reflexivity]. discriminate.
    + exists (String ch k'). split; [discriminate | reflexivity].
Qed.

(** X8.  The body of an agent request never carries a falsy [prompt],
    [address] or [kbId]: whatever is supplied, what goes upstream under
    these three keys is truthy (so never [null], [false], [0] or an
    empty string), and [chainId] goes as supplied. *)
Theorem agent_body_never_falsy env c args :
  truthy (opt_get args "prompt") = true ->
  exists p a k,
    truthy p = true /\ truthy a = true /\ truthy k = true /\
    snd (fst (callTool "agent" args env c)) =
      [HttpPost "/api/v0/agent"
         [("prompt", p); ("address", a); ("chainId", opt_get args "chainId");
          ("kbId", k)]].
Proof.
  intros H. rewrite callTool_agent_made by assumption. unfold agentRequest.
  do 3 eexists. repeat split; try reflexivity; try assumption.
  - unfold js_or. destruct (truthy (opt_get args "address")) eqn:Ha; [exact Ha | reflexivity].
  - unfold js_or. destruct (truthy (opt_get args "kbId")) eqn:Hk; [exact Hk | reflexivity].
Qed.

(** *** The type guard *)

(** X9.  [isValidSearchArgs] is a sound and complete guard for the
    interface [SearchArgs]: it returns true exactly on the values that
    conform to the interface; [null], arrays, primitives and [undefined]
    are refused. *)
Theorem isValidSearchArgs_guards_SearchArgs v :
  isValidSearchArgs v = true <-> SearchArgs v.
Proof.
  split.
  - intros H. destruct (valid_search_object _ H) as [fields ->].
    pose proof (isValidSearchArgs_true _ H) as (Hq & Hkb & Hn).
    rewrite !opt_get_some in *. cbn [get_own] in *.
    destruct (assoc "query" fields) as [[ | | | q | | ]|] eqn:Eq; try discriminate.
    exists fields, q. split; [reflexivity|]. split; [exact Eq|]. split.
    + destruct Hkb as [Hkb | Hkb]; [now left | right].
      destruct (assoc "kb" fields) as [[ | | | k | | ]|]; try discriminate. now exists k.
    + destruct Hn as [Hn | Hn]; [now left | right].
      destruct (assoc "numResults" fields) as [[ | | n | | | ]|]; try discriminate.
      now exists n.
  - intros (fields & q & -> & Hq & Hkb & Hn).
    unfold isValidSearchArgs. cbn [get_own typeof is_null negb andb String.eqb].
    rewrite Hq. destruct Hkb as [-> | [k ->]]; destruct Hn as [-> | [n ->]]; reflexivity.
Qed.

(** *** Reading and listing resources *)

Lemma readResource_matched uri digits env c :
  match_search_uri uri = Some digits ->
  readResource uri env c =
    match index_read c (parseInt digits) with
    | Some search =>
        (c, [], inr (ReadResult.mk
                       [ResourceContents.mk uri "application/json"
                          (JSON_stringify (response search))]))
    | None =>
        (c, [], inl (McpError InvalidRequest
                       ("Search result not found: " ++ Number_toString (parseInt digits))))
    end.
Proof.
  intros Hm. unfold readResource. rewrite Hm. run.
  destruct (index_read c (parseInt digits)); reflexivity.
Qed.

Lemma all_digits_zeros n s : all_digits (zeros n ++ s) = all_digits s.
Proof. induction n as [|n IH]; [reflexivity | exact IH]. Qed.

Lemma parseInt_zeros n s : parseInt (zeros n ++ s) = parseInt s.
Proof.
  unfold parseInt. induction n as [|n IH]; [reflexivity|].
  cbn [zeros append parseInt_from]. exact IH.
Qed.

(** X10.  Resource addresses are not canonical: zeros put before the
    digits change neither the entry that is read nor the number in the
    not-found message; only the [uri] echoed in the content differs. *)
Theorem leading_zeros_read_same_entry n digits env c :
  digits <> EmptyString ->
  all_digits digits = true ->
  let uri := "brianknows://searches/" ++ zeros n ++ digits in
  readResource uri env c =
    match index_read c (parseInt digits) with
    | Some search =>
        (c, [], inr (ReadResult.mk
                       [ResourceContents.mk uri "application/json"
                          (JSON_stringify (response search))]))
    | None =>
        (c, [], inl (McpError InvalidRequest
                       ("Search result not found: " ++ Number_toString (parseInt digits))))
    end.
Proof.
  intros Hne Hd uri.
  assert (Hm : match_search_uri uri = Some (zeros n ++ digits)).
  { apply match_search_uri_spec. split; [reflexivity|]. split.
    - destruct n; [exact Hne | discriminate].
    - now rewrite all_digits_zeros. }
  rewrite (readResource_matched uri _ env c Hm), parseInt_zeros. reflexivity.
Qed.

Lemma listResources_run env c :
  listResources env c =
    (c, [], match map_from describe 0 c with
            | inl x => inl x
            | inr rs => inr (ListResourcesResult.mk rs)
            end).
Proof.
  unfold listResources. run. destruct (map_from describe 0 c); reflexivity.
Qed.

Lemma map_from_inr {A B} (f : A -> nat -> Exn + B) k l rs :
  map_from f k l = inr rs ->
  length rs = length l /\
  forall i a, nth_error l i = Some a ->
    exists r, f a (k + i) = inr r /\ nth_error rs i = Some r.
Proof.
  revert k rs. induction l as [|x l IH]; intros k rs H; cbn [map_from] in H.
  - injection H as <-. split; [reflexivity|]. intros [|i] a; discriminate.
  - destruct (f x k) as [e|y] eqn:Hx; [discriminate|].
    destruct (map_from f (S k) l) as [e|ys] eqn:Hl; [discriminate|].
    injection H as <-. destruct (IH _ _ Hl) as [Hlen Hnth]. split.
    + cbn. now rewrite Hlen.
    + intros [|i] a Ha; cbn in Ha.
      * injection Ha as <-. exists y. rewrite Nat.add_0_r. now split.
      * destruct (Hnth i a Ha) as (r & Hr & Hi). exists r.
        rewrite Nat.add_succ_r. now split.
Qed.

Lemma describe_shown search index q :
  ToString (query search) = inr q ->
  describe search index =
    inr (Resource.mk ("brianknows://searches/" ++ Number_toString (Z.of_nat index))
           ("Recent search: " ++ q) "application/json"
           ("Search results for: " ++ q ++ " (" ++ timestamp search ++ ")")).
Proof. intros H. unfold describe. now rewrite H. Qed.

Lemma map_from_describe k c :
  Forall (fun s => exists q, ToString (query s) = inr q) c ->
  exists rs, map_from describe k c = inr rs.
Proof.
  intros H. revert k. induction H as [|s c [q Hq] _ IH]; intros k; cbn [map_from].
  - now exists [].
  - rewrite (describe_shown s k q Hq). destruct (IH (S k)) as [rs ->]. eauto.
Qed.

(** X11.  When the query of every cached entry has a string form (as
    every string has), listing succeeds and gives one descriptor per
    entry, in cache order: the one at position [i] has the address of
    position [i], the query in its name, and the query and the
    timestamp in its description.  The cache is not changed and no HTTP
    request is made. *)
Theorem listing_describes_cache env c :
  Forall (fun s => exists q, ToString (query s) = inr q) c ->
  exists rs,
    listResources env c = (c, [], inr (ListResourcesResult.mk rs)) /\
    length rs = length c /\
    forall i s q,
      nth_error c i = Some s -> ToString (query s) = inr q ->
      nth_error rs i =
        Some (Resource.mk
                ("brianknows://searches/" ++ Number_toString (Z.of_nat i))
                ("Recent search: " ++ q) "application/json"
                ("Search results for: " ++ q ++ " (" ++ timestamp s ++ ")")).
Proof.
  intros H. destruct (map_from_describe 0 c H) as [rs Hrs]. exists rs.
  rewrite listResources_run, Hrs. split; [reflexivity|].
  destruct (map_from_inr _ _ _ _ Hrs) as [Hlen Hnth]. split; [exact Hlen|].
  intros i s q Hs Hq. destruct (Hnth i s Hs) as (r & Hr & Hi).
  rewrite (describe_shown s _ q Hq) in Hr. cbn [Nat.add] in Hr.
  injection Hr as <-. exact Hi.
Qed.

(** X12.  Listing and reading agree: when the runtime prints the
    indices of the cache in decimal, every descriptor in a listing can
    be read back, and reading its [uri] returns, under the same [uri]
    and MIME type, the serialized [response] of the entry at the
    position of the descriptor. *)
Theorem listed_resources_can_be_read env env' c rs :
  prints_indices (length c) ->
  listResources env c = (c, [], inr (ListResourcesResult.mk rs)) ->
  forall i r,
    nth_error rs i = Some r ->
    exists s,
      nth_error c i = Some s /\
      readResource (Resource.uri r) env' c =
        (c, [], inr (ReadResult.mk
                       [ResourceContents.mk (Resource.uri r) (Resource.mimeType r)
                          (JSON_stringify (response s))])).
Proof.
  intros Hprint Hlist i r Hr.
  rewrite listResources_run in Hlist.
  destruct (map_from describe 0 c) as [x|rs'] eqn:Hmap; [discriminate|].
  injection Hlist as ->.
  destruct (map_from_inr _ _ _ _ Hmap) as [Hlen Hnth].
  assert (Hi : i < length c).
  { rewrite <- Hlen. apply nth_error_Some. congruence. }
  destruct (nth_error c i) as [s|] eqn:Hs; [|apply nth_error_None in Hs; lia].
  exists s. split; [reflexivity|].
  destruct (Hnth i s Hs) as (r' & Hd & Hi'). cbn [Nat.add] in Hd.
  assert (r' = r) by congruence. subst r'.
  unfold describe in Hd.
  destruct (ToString (query s)) as [x|q]; [discriminate|].
  injection Hd as <-. cbn [Resource.uri Resource.mimeType].
  destruct (Hprint i Hi) as (Hne & Hdig & Hparse).
  rewrite (readResource_matched _ (Number_toString (Z.of_nat i)) env' c).
  - rewrite Hparse. unfold index_read. rewrite Nat2Z.id, Hs. reflexivity.
  - apply match_search_uri_spec. now repeat split.
Qed.

Lemma remember_cons e c : exists rest, remember e c = e :: rest.
Proof.
  pose proof (remember_head e c) as H. unfold index_read in H.
  change (Z.to_nat 0) with 0 in H.
  destruct (remember e c) as [|x rest]; [discriminate|].
  injection H as ->. now exists rest.
Qed.

Lemma ToString_throws v x : ToString v = inl x -> x = TypeError.
Proof.
  destruct v as [[ | [|] | n | str | elems | fields]|]; cbn; try discriminate;
    destruct (Object_toString _); congruence.
Qed.

Lemma describe_throws search index x : describe search index = inl x -> x = TypeError.
Proof.
  unfold describe. destruct (ToString (query search)) as [y|q] eqn:Hq; [|discriminate].
  intros [= <-]. now apply ToString_throws in Hq.
Qed.

Lemma listing_throws env c s :
  In s c -> ToString (query s) = inl TypeError ->
  listResources env c = (c, [], inl TypeError).
Proof.
  intros Hin Hs. rewrite listResources_run.
  assert (Hmap : forall k, map_from describe k c = inl TypeError).
  { induction c as [|x c IH]; intros k; [destruct Hin|]. cbn [map_from].
    destruct (describe x k) as [y|r] eqn:Hx.
    - now rewrite (describe_throws _ _ _ Hx).
    - destruct Hin as [-> | Hin].
      + unfold describe in Hx. rewrite Hs in Hx. discriminate.
      + now rewrite (IH Hin). }
  now rewrite Hmap.
Qed.

Lemma serve_recorded rqs c :
  length c <= 5 -> fst (serve rqs c) = firstn 5 (rev (recorded_by rqs) ++ c).
Proof.
  revert c. induction rqs as [|[env rq] rest IH]; intros c Hc.
  - cbn [serve recorded_by fst rev app]. symmetry. now apply firstn_all2.
  - cbn [serve recorded_by].
    destruct (recorded env rq) as [e|] eqn:Hrec.
    + apply recorded_iff_Succeeds in Hrec.
      destruct (handle_succeeds env rq e c Hrec) as [sent Hrun]. rewrite Hrun.
      assert (Hlen : length (remember e c) <= 5).
      { rewrite remember_firstn by assumption. rewrite length_firstn. lia. }
      specialize (IH (remember e c) Hlen).
      destruct (serve rest (remember e c)) as [c2 answers]. cbn [fst] in *.
      rewrite IH, remember_firstn by assumption. cbn [rev].
      rewrite firstn_app_firstn, <- app_assoc. reflexivity.
    + pose proof (handle_not_recorded env rq c Hrec) as Hsame.
      destruct (handle rq env c) as [[c1 made] answer]. cbn [fst] in Hsame. subst c1.
      specialize (IH c Hc). destruct (serve rest c) as [c2 answers]. exact IH.
Qed.

(** X13.  The agent branch accepts any truthy prompt and caches it as
    the query.  When the prompt is one whose conversion to a string
    throws, the call itself succeeds, and listing the resources then
    throws that [TypeError] instead of returning a listing.  On a cache
    of at most 5 entries it goes on throwing after any further requests
    that record fewer than five results, the entry being still cached;
    once five later results are recorded the cache holds only those. *)
Theorem unprintable_prompt_breaks_listing env env' c args r :
  truthy (opt_get args "prompt") = true ->
  http env (HttpPost API_CONFIG.ENDPOINTS.AGENT (agentRequest args)) = Resolved r ->
  ToString (opt_get args "prompt") = inl TypeError ->
  exists c' made result,
    callTool "agent" args env c = (c', made, inr result) /\
    listResources env' c' = (c', [], inl TypeError) /\
    (length c <= 5 ->
     forall rqs,
       length (recorded_by rqs) < 5 ->
       listResources env' (fst (serve rqs c')) = (fst (serve rqs c'), [], inl TypeError)) /\
    (length c <= 5 ->
     forall rqs,
       5 <= length (recorded_by rqs) ->
       fst (serve rqs c') = firstn 5 (rev (recorded_by rqs))).
Proof.
  intros Hv Hr Hthrow. rewrite callTool_agent_valid by assumption. cbv zeta.
  rewrite Hr. do 3 eexists. split; [reflexivity|].
  set (e := mkCachedSearch (opt_get args "prompt") (AxiosResponse.data r) (now env)).
  destruct (remember_cons e c) as [rest Hrest].
  assert (Hlen : length c <= 5 -> length (remember e c) <= 5).
  { intros Hc. rewrite remember_firstn by assumption. rewrite length_firstn. lia. }
  split; [|split].
  - apply (listing_throws env' _ e); [|exact Hthrow]. rewrite Hrest. now left.
  - intros Hc rqs Hfew. apply (listing_throws env' _ e); [|exact Hthrow].
    rewrite serve_recorded by auto. rewrite Hrest.
    apply (nth_error_In _ (length (recorded_by rqs))).
    rewrite nth_error_firstn.
    replace (length (recorded_by rqs) <? 5)%nat with true
      by (symmetry; now apply Nat.ltb_lt).
    rewrite nth_error_app2 by (rewrite length_rev; lia).
    rewrite length_rev, Nat.sub_diag. reflexivity.
  - intros Hc rqs Hmany. rewrite serve_recorded by auto.
    rewrite firstn_app. rewrite length_rev.
    replace (5 - length (recorded_by rqs)) with 0 by lia.
    cbn [firstn]. now rewrite app_nil_r.
Qed.

(** X14.  The [catch] block converts the [error] value of the upstream
    body to a string without a guard: when that conversion throws, a
    failed upstream call ends in the [TypeError], not in an [isError]
    result.  The cache is unchanged. *)
Theorem unprintable_upstream_error_escapes name args env c c' made answer rq e v :
  callTool name args env c = (c', made, answer) ->
  In rq made ->
  http env rq = Rejected e ->
  upstream_error e = Some v ->
  ToString (Some v) = inl TypeError ->
  c' = c /\ answer = inl TypeError.
Proof.
  intros Hrun Hin Hrej Hv Hthrow.
  pose proof (callTool_outcome env c name args) as Hout.
  rewrite Hrun in Hout. inversion Hout; subst.
  - destruct Hin.
  - destruct Hin as [<- | []].
    assert (e0 = e) by congruence. subst e0. split; [reflexivity|].
    unfold caught, js_coalesce. rewrite Hv.
    replace (nullish (Some v)) with false
      by (destruct v; try reflexivity; discriminate).
    now rewrite Hthrow.
  - destruct Hin as [<- | []]. congruence.
  - destruct Hin as [<- | []]. congruence.
Qed.

End Server.

(** ** The handlers run on examples *)

#[global] Existing Instance Sample.runtime.

Lemma search_call_succeeds q answer stamp :
  Succeeds (fst (Sample.search_call q answer stamp))
    (snd (Sample.search_call q answer stamp)) (Sample.result_of q answer stamp).
Proof.
  exact (search_succeeds (Sample.answering (Sample.payload answer) stamp)
           (Sample.search_args q) (AxiosResponse.mk 200 (Sample.payload answer))
           eq_refl eq_refl).
Qed.

Lemma agent_call_succeeds p answer stamp :
  p <> EmptyString ->
  Succeeds (fst (Sample.agent_call p answer stamp))
    (snd (Sample.agent_call p answer stamp)) (Sample.result_of p answer stamp).
Proof.
  intros Hp.
  refine (agent_succeeds (Sample.answering (Sample.payload answer) stamp)
            (Sample.agent_args p) (AxiosResponse.mk 200 (Sample.payload answer))
            _ eq_refl).
  destruct p; [contradiction | reflexivity].
Qed.

Lemma six_calls_succeed :
  Forall2 (fun call e => Succeeds (fst call) (snd call) e)
    Sample.six_calls Sample.six_results.
Proof.
  unfold Sample.six_calls, Sample.six_results.
  repeat first
    [ apply Forall2_nil
    | apply Forall2_cons
    | apply search_call_succeeds
    | apply agent_call_succeeds; discriminate ].
Qed.

Example six_calls_cache :
  fst (serve Sample.six_calls initial_cache) =
    [Sample.result_of "q6" "a6" "t6"; Sample.result_of "q5" "a5" "t5";
     Sample.result_of "q4" "a4" "t4"; Sample.result_of "q3" "a3" "t3";
     Sample.result_of "q2" "a2" "t2"].
Proof. vm_compute. reflexivity. Qed.

Example search_then_read :
  let '(cache, _, _) :=
    callTool "search" (Sample.search_args "What is blockchain?")
      (Sample.answering (Sample.payload "X") "t1") initial_cache in
  cache = [Sample.result_of "What is blockchain?" "X" "t1"] /\
  snd (readResource "brianknows://searches/0" (Sample.answering JNull "t2") cache)
    = inr (ReadResult.mk
             [ResourceContents.mk "brianknows://searches/0" "application/json"
                (JSON_stringify (Sample.payload "X"))]).
Proof. vm_compute. split; reflexivity. Qed.

Example leading_zeros_address :
  match_search_uri "brianknows://searches/0003" = Some "0003" /\ parseInt "0003" = 3%Z.
Proof. split; reflexivity. Qed.

Example malformed_addresses :
  match_search_uri "brianknows://searches/" = None /\
  match_search_uri "brianknows://searches/1a" = None /\
  match_search_uri "brianknows://searches/-1" = None /\
  match_search_uri "xbrianknows://searches/1" = None.
Proof. repeat split; reflexivity. Qed.

(** Witness of C1: six successful calls, alternating search and agent. *)
Lemma recent_results_newest_first_witness :
  Forall2 (fun call e => Succeeds (fst call) (snd call) e)
    Sample.six_calls Sample.six_results /\
  (let cache := fst (serve Sample.six_calls initial_cache) in
   length cache <= 5 /\
   cache = firstn 5 (rev Sample.six_results) /\
   (5 < length Sample.six_calls ->
    length cache = 5 /\
    cache = rev (skipn (length Sample.six_results - 5) Sample.six_results))).
Proof.
  split.
  - exact six_calls_succeed.
  - exact (recent_results_newest_first Sample.six_calls Sample.six_results
             six_calls_succeed).
Defined.

(** Witness of C8: a third result recorded into a cache of two. *)
Lemma record_then_get_first_witness :
  Succeeds (fst (Sample.search_call "q3" "a3" "t3"))
    (snd (Sample.search_call "q3" "a3" "t3")) (Sample.result_of "q3" "a3" "t3") /\
  (let c' := fst (fst (handle (snd (Sample.search_call "q3" "a3" "t3"))
                         (fst (Sample.search_call "q3" "a3" "t3"))
                         Sample.two_entries)) in
   index_read c' 0 = Some (Sample.result_of "q3" "a3" "t3") /\
   forall env',
     readResource "brianknows://searches/0" env' c' =
       (c', [],
        inr (ReadResult.mk
               [ResourceContents.mk "brianknows://searches/0" "application/json"
                  (JSON_stringify (response (Sample.result_of "q3" "a3" "t3")))]))).
Proof.
  split.
  - apply search_call_succeeds.
  - exact (record_then_get_first _ _ _ Sample.two_entries
             (search_call_succeeds "q3" "a3" "t3")).
Defined.

(** Witness of C7: a ping answered with [{status: "ok"}] over a cache of two. *)
Lemma ping_echoes_without_caching_witness :
  http (Sample.answering (JObject [("status", JString "ok")]) "t")
    (HttpGet API_CONFIG.ENDPOINTS.PING)
    = Resolved (AxiosResponse.mk 200 (JObject [("status", JString "ok")])) /\
  callTool "ping" (Some (JObject []))
    (Sample.answering (JObject [("status", JString "ok")]) "t") Sample.two_entries =
    (Sample.two_entries, [HttpGet "/api/v0/utils/ping"],
     inr (ToolResult.mk
            [TextContent.mk "text"
               (JSON_stringify
                  (AxiosResponse.data
                     (AxiosResponse.mk 200 (JObject [("status", JString "ok")]))))]
            None)).
Proof.
  split.
  - reflexivity.
  - apply ping_echoes_without_caching. reflexivity.
Defined.

(** Witness of C6: a search call without [query]. *)
Lemma invalid_search_arguments_rejected_witness :
  (typeof (opt_get (Some (JObject [("kb", JString "lido_kb")])) "query") <> "string" \/
   (exists v, opt_get (Some (JObject [("kb", JString "lido_kb")])) "kb" = Some v /\
              typeof (Some v) <> "string") \/
   (exists v, opt_get (Some (JObject [("kb", JString "lido_kb")])) "numResults" = Some v /\
              typeof (Some v) <> "number")) /\
  callTool "search" (Some (JObject [("kb", JString "lido_kb")]))
    (Sample.answering JNull "t") Sample.two_entries =
    (Sample.two_entries, [], inl (McpError InvalidParams "Invalid search arguments")).
Proof.
  assert (H : typeof (opt_get (Some (JObject [("kb", JString "lido_kb")])) "query")
              <> "string") by (simpl; discriminate).
  split.
  - left. exact H.
  - apply invalid_search_arguments_rejected. left. exact H.
Defined.

(** Witness of C9: an agent call whose prompt is the number 7. *)
Lemma agent_validation_is_truthiness_witness :
  truthy (opt_get (Some (JObject [("prompt", JNumber 7)])) "prompt") = true /\
  exists c' answer others,
    callTool "agent" (Some (JObject [("prompt", JNumber 7)]))
      (Sample.answering JNull "t") initial_cache =
      (c', [HttpPost "/api/v0/agent"
              (("prompt", opt_get (Some (JObject [("prompt", JNumber 7)])) "prompt")
               :: others)],
       answer).
Proof.
  split.
  - reflexivity.
  - exact (proj1 (proj2 (agent_validation_is_truthiness (Sample.answering JNull "t")
                           initial_cache (Some (JObject [("prompt", JNumber 7)]))))
             eq_refl).
Defined.

(** Witness of C10: an agent call that meets a network error. *)
Lemma failed_upstream_leaves_cache_witness :
  ("agent" = "search" \/ "agent" = "agent") /\
  callTool "agent" (Sample.agent_args "hi")
    (Sample.failing Sample.network_error "t") Sample.two_entries =
    (Sample.two_entries,
     [HttpPost API_CONFIG.ENDPOINTS.AGENT (agentRequest (Sample.agent_args "hi"))],
     inr (error_result "Network Error")) /\
  (forall rq e,
     In rq [HttpPost API_CONFIG.ENDPOINTS.AGENT (agentRequest (Sample.agent_args "hi"))] ->
     http (Sample.failing Sample.network_error "t") rq = Rejected e ->
     Sample.two_entries = Sample.two_entries) /\
  (Sample.two_entries <> Sample.two_entries ->
   exists rq r,
     [HttpPost API_CONFIG.ENDPOINTS.AGENT (agentRequest (Sample.agent_args "hi"))] = [rq] /\
     http (Sample.failing Sample.network_error "t") rq = Resolved r).
Proof.
  split; [right; reflexivity|].
  split; [reflexivity|].
  exact (failed_upstream_leaves_cache
           "agent" (Sample.agent_args "hi") (Sample.failing Sample.network_error "t")
           Sample.two_entries Sample.two_entries
           [HttpPost API_CONFIG.ENDPOINTS.AGENT (agentRequest (Sample.agent_args "hi"))]
           (inr (error_result "Network Error"))
           (or_intror eq_refl) eq_refl).
Defined.

(** C3.  A failed upstream call does not always end in a tool-level
    error result.  A search call answered with status 500 and the body
    [{error: {toString: 1}}] ends in a [TypeError] thrown by the
    template literal of the [catch] block, which converts the [error]
    object to a string: the handler throws instead of returning an
    [isError] result.  The one request was made and the cache is
    unchanged. *)
Lemma upstream_error_object_escapes_catch :
  http (Sample.failing Sample.shadowing_error "t")
    (HttpPost "/api/v0/agent/knowledge"
       [("prompt", Some (JString "q")); ("kb", Some (JString "public-knowledge-box"))])
    = Rejected Sample.shadowing_error /\
  callTool "search" (Sample.search_args "q")
    (Sample.failing Sample.shadowing_error "t") Sample.two_entries =
    (Sample.two_entries,
     [HttpPost "/api/v0/agent/knowledge"
        [("prompt", Some (JString "q")); ("kb", Some (JString "public-knowledge-box"))]],
     inl TypeError).
Proof. split; reflexivity. Qed.

(** Witness of X15: a search call answered with status 429 and an
    [error] string in the body. *)
Lemma upstream_failure_is_tool_error_witness :
  http (Sample.failing Sample.rate_limited "t")
    (HttpPost API_CONFIG.ENDPOINTS.KNOWLEDGE (searchRequest (Sample.search_args "q")))
    = Rejected Sample.rate_limited /\
  callTool "search" (Sample.search_args "q")
    (Sample.failing Sample.rate_limited "t") Sample.two_entries =
    (Sample.two_entries,
     [HttpPost API_CONFIG.ENDPOINTS.KNOWLEDGE (searchRequest (Sample.search_args "q"))],
     inr (error_result "Too many requests")) /\
  inr (error_result "Too many requests") =
    (inr (ToolResult.mk
            [TextContent.mk "text" "Brian API error: Too many requests"]
            (Some true)) : Exn + ToolResult.t).
Proof.
  split; [reflexivity|]. split; [reflexivity|].
  pose proof (upstream_failure_is_tool_error "search" (Sample.search_args "q")
                (Sample.failing Sample.rate_limited "t") Sample.two_entries
                Sample.two_entries
                [HttpPost API_CONFIG.ENDPOINTS.KNOWLEDGE
                   (searchRequest (Sample.search_args "q"))]
                (inr (error_result "Too many requests"))
                (HttpPost API_CONFIG.ENDPOINTS.KNOWLEDGE
                   (searchRequest (Sample.search_args "q")))
                Sample.rate_limited eq_refl (or_introl eq_refl) eq_refl)
    as (_ & _ & _ & _ & Hm & _).
  exact (Hm (AxiosResponse.mk 429 (JObject [("error", JString "Too many requests")]))
           "Too many requests" eq_refl eq_refl).
Defined.

(** Witness of C5: a search call with [query], [kb] and [numResults];
    the supplied [kb] goes upstream and [numResults] does not. *)
Lemma search_request_body_witness :
  isValidSearchArgs
    (Some (JObject [("query", JString "q"); ("kb", JString "lido_kb");
                    ("numResults", JNumber 3)])) = true /\
  snd (fst (callTool "search"
              (Some (JObject [("query", JString "q"); ("kb", JString "lido_kb");
                              ("numResults", JNumber 3)]))
              (Sample.answering JNull "t") initial_cache)) =
    [HttpPost "/api/v0/agent/knowledge"
       [("prompt", Some (JString "q")); ("kb", Some (JString "lido_kb"))]].
Proof.
  split; [reflexivity|].
  apply (proj1 (proj2 (proj2 (proj2 (search_request_body
           (Sample.answering JNull "t") initial_cache
           (Some (JObject [("query", JString "q"); ("kb", JString "lido_kb");
                           ("numResults", JNumber 3)])) eq_refl)) "q" eq_refl)));
    [reflexivity | discriminate].
Defined.

(** Witness of C4 (amended): an agent call with only [prompt]. *)
Lemma agent_request_body_witness :
  truthy (opt_get (Sample.agent_args "hi") "prompt") = true /\
  snd (fst (callTool "agent" (Sample.agent_args "hi")
              (Sample.answering JNull "t") initial_cache)) =
    [HttpPost "/api/v0/agent"
       [("prompt", opt_get (Sample.agent_args "hi") "prompt");
        ("address", js_or (opt_get (Sample.agent_args "hi") "address")
                      (Some (JString "0x0000000000000000000000000000000000000000")));
        ("chainId", opt_get (Sample.agent_args "hi") "chainId");
        ("kbId", js_or (opt_get (Sample.agent_args "hi") "kbId")
                   (Some (JString "public-knowledge-box")))]].
Proof.
  split.
  - reflexivity.
  - apply (agent_request_body (Sample.answering JNull "t") initial_cache
             (Sample.agent_args "hi") eq_refl).
Defined.

(** Counterexample to C4 as stated: [address] is supplied, as the empty
    string, and what goes upstream under [address] is the all-zero
    address, not the supplied value. *)
Lemma agent_supplied_address_replaced :
  truthy (opt_get Sample.empty_address_args "prompt") = true /\
  opt_get Sample.empty_address_args "address" = Some (JString EmptyString) /\
  snd (fst (callTool "agent" Sample.empty_address_args
              (Sample.answering JNull "t") initial_cache)) =
    [HttpPost "/api/v0/agent"
       [("prompt", Some (JString "hi"));
        ("address", Some (JString "0x0000000000000000000000000000000000000000"));
        ("chainId", None);
        ("kbId", Some (JString "public-knowledge-box"))]] /\
  Some (JString "0x0000000000000000000000000000000000000000")
    <> opt_get Sample.empty_address_args "address".
Proof.
  repeat split; try reflexivity. discriminate.
Qed.

(** Witness of C2: in a cache of two, position 1 reads the second entry
    and position 2 is not found. *)
Lemma read_resource_by_position_witness :
  readResource "brianknows://searches/1" (Sample.answering JNull "t") Sample.two_entries =
    (Sample.two_entries, [],
     inr (ReadResult.mk
            [ResourceContents.mk "brianknows://searches/1" "application/json"
               (JSON_stringify (Sample.payload "a1"))])) /\
  readResource "brianknows://searches/2" (Sample.answering JNull "t") Sample.two_entries =
    (Sample.two_entries, [],
     inl (McpError InvalidRequest ("Search result not found: " ++ Number_toString 2))).
Proof.
  split.
  - exact (proj2 (proj2 (proj2 (proj2 (read_resource_by_position
             "brianknows://searches/1" (Sample.answering JNull "t")
             Sample.two_entries)))) 1).
  - exact (proj2 (proj2 (proj2 (proj2 (read_resource_by_position
             "brianknows://searches/2" (Sample.answering JNull "t")
             Sample.two_entries)))) 2).
Defined.

(** ** The further properties on examples *)

Example mixed_run_cache :
  fst (serve Sample.mixed_run initial_cache) =
    [Sample.result_of "q6" "a6" "t6"; Sample.result_of "q1" "a1" "t1"].
Proof. vm_compute. reflexivity. Qed.

Example listing_two_entries :
  snd (listResources (Sample.answering JNull "t") Sample.two_entries) =
    inr (ListResourcesResult.mk
           [Resource.mk "brianknows://searches/0" "Recent search: q2" "application/json"
              "Search results for: q2 (t2)";
            Resource.mk "brianknows://searches/1" "Recent search: q1" "application/json"
              "Search results for: q1 (t1)"]).
Proof. vm_compute. reflexivity. Qed.

(** Witness of X1: the mixed run from the empty cache. *)
Lemma cache_after_any_run_witness :
  length initial_cache <= 5 /\
  fst (serve Sample.mixed_run initial_cache) =
    firstn 5 (rev (recorded_by Sample.mixed_run) ++ initial_cache) /\
  length (fst (serve Sample.mixed_run initial_cache)) <= 5.
Proof.
  split.
  - cbn. lia.
  - apply cache_after_any_run. cbn. lia.
Defined.

(** Witness of X2: a third result recorded into a cache of two. *)
Lemma record_shifts_positions_witness :
  Succeeds (fst (Sample.search_call "q3" "a3" "t3"))
    (snd (Sample.search_call "q3" "a3" "t3")) (Sample.result_of "q3" "a3" "t3") /\
  length Sample.two_entries <= 5 /\
  (let c' := fst (fst (handle (snd (Sample.search_call "q3" "a3" "t3"))
                         (fst (Sample.search_call "q3" "a3" "t3"))
                         Sample.two_entries)) in
   (forall i, S i < 5 -> nth_error c' (S i) = nth_error Sample.two_entries i) /\
   (forall i, 5 <= i -> nth_error c' i = None)).
Proof.
  assert (Hlen : length Sample.two_entries <= 5) by (cbn; lia).
  split; [apply search_call_succeeds|]. split; [exact Hlen|].
  exact (record_shifts_positions _ _ _ Sample.two_entries
           (search_call_succeeds "q3" "a3" "t3") Hlen).
Defined.

(** Witness of X3: the same call. *)
Lemma recorded_matches_exchange_witness :
  Succeeds (fst (Sample.search_call "q3" "a3" "t3"))
    (snd (Sample.search_call "q3" "a3" "t3")) (Sample.result_of "q3" "a3" "t3") /\
  exists c' url body text,
    handle (snd (Sample.search_call "q3" "a3" "t3"))
      (fst (Sample.search_call "q3" "a3" "t3")) Sample.two_entries =
      (c', [HttpPost url body],
       inr (ToolResponse (ToolResult.mk [TextContent.mk "text" text] None))) /\
    assoc_body "prompt" body = Some (query (Sample.result_of "q3" "a3" "t3")) /\
    nth_error c' 0 = Some (Sample.result_of "q3" "a3" "t3") /\
    forall env',
      readResource "brianknows://searches/0" env' c' =
        (c', [],
         inr (ReadResult.mk
                [ResourceContents.mk "brianknows://searches/0" "application/json" text])).
Proof.
  split; [apply search_call_succeeds|].
  exact (recorded_matches_exchange _ _ _ Sample.two_entries
           (search_call_succeeds "q3" "a3" "t3")).
Defined.

(** Witness of X5: the tool name [list] is not advertised. *)
Lemma dispatcher_matches_advertised_tools_witness :
  ~ In "list" advertised /\
  callTool "list" None (Sample.answering JNull "t") Sample.two_entries =
    (Sample.two_entries, [], inl (McpError MethodNotFound ("Unknown tool: " ++ "list"))).
Proof.
  assert (H : ~ In "list" advertised).
  { cbn. intros [H | [H | [H | []]]]; discriminate. }
  split; [exact H|].
  exact (proj1 (dispatcher_matches_advertised_tools "list" None
                  (Sample.answering JNull "t") Sample.two_entries) H).
Defined.

(** Witness of X6: the search tool, whose schema requires [query]. *)
Lemma required_fields_enforced_witness :
  In (Tool.mk "search" "Search using Brian's knowledge engine"
        (InputSchema.mk "object"
           [("query", PropertySchema.mk "string" "Search query");
            ("kb", PropertySchema.mk "string"
                     "Knowledge box to search in (default: public-knowledge-box). Options: circle_kb, lido_kb, Polygon_kb, taiko_kb, near_kb, clave_kb, starknet_kb, consensys_kb")]
           ["query"]))
     (ListToolsResult.tools listTools) /\
  In "query" ["query"] /\
  opt_get (Some (JObject [("kb", JString "lido_kb")])) "query" = None /\
  exists msg,
    callTool "search" (Some (JObject [("kb", JString "lido_kb")]))
      (Sample.answering JNull "t") Sample.two_entries =
      (Sample.two_entries, [], inl (McpError InvalidParams msg)).
Proof.
  assert (Ht : In (Tool.mk "search" "Search using Brian's knowledge engine"
        (InputSchema.mk "object"
           [("query", PropertySchema.mk "string" "Search query");
            ("kb", PropertySchema.mk "string"
                     "Knowledge box to search in (default: public-knowledge-box). Options: circle_kb, lido_kb, Polygon_kb, taiko_kb, near_kb, clave_kb, starknet_kb, consensys_kb")]
           ["query"]))
     (ListToolsResult.tools listTools)) by (right; left; reflexivity).
  split; [exact Ht|]. split; [left; reflexivity|]. split; [reflexivity|].
  exact (required_fields_enforced _ "query" (Some (JObject [("kb", JString "lido_kb")]))
           (Sample.answering JNull "t") Sample.two_entries Ht (or_introl eq_refl) eq_refl).
Defined.

(** Witness of X7: a search call with an empty [kb]. *)
Lemma search_body_well_typed_witness :
  isValidSearchArgs
    (Some (JObject [("query", JString "q"); ("kb", JString EmptyString)])) = true /\
  exists q k,
    k <> EmptyString /\
    snd (fst (callTool "search"
                (Some (JObject [("query", JString "q"); ("kb", JString EmptyString)]))
                (Sample.answering JNull "t") initial_cache)) =
      [HttpPost "/api/v0/agent/knowledge"
         [("prompt", Some (JString q)); ("kb", Some (JString k))]].
Proof.
  split; [reflexivity|].
  exact (search_body_well_typed (Sample.answering JNull "t") initial_cache
           (Some (JObject [("query", JString "q"); ("kb", JString EmptyString)]))
           eq_refl).
Defined.

(** Witness of X8: the agent call with an empty [address]. *)
Lemma agent_body_never_falsy_witness :
  truthy (opt_get Sample.empty_address_args "prompt") = true /\
  exists p a k,
    truthy p = true /\ truthy a = true /\ truthy k = true /\
    snd (fst (callTool "agent" Sample.empty_address_args
                (Sample.answering JNull "t") initial_cache)) =
      [HttpPost "/api/v0/agent"
         [("prompt", p); ("address", a);
          ("chainId", opt_get Sample.empty_address_args "chainId"); ("kbId", k)]].
Proof.
  split; [reflexivity|].
  exact (agent_body_never_falsy (Sample.answering JNull "t") initial_cache
           Sample.empty_address_args eq_refl).
Defined.

(** Witness of X10: position [001] of a cache of two. *)
Lemma leading_zeros_read_same_entry_witness :
  "1" <> EmptyString /\
  all_digits "1" = true /\
  readResource ("brianknows://searches/" ++ zeros 2 ++ "1")
    (Sample.answering JNull "t") Sample.two_entries =
    match index_read Sample.two_entries (parseInt "1") with
    | Some search =>
        (Sample.two_entries, [],
         inr (ReadResult.mk
                [ResourceContents.mk ("brianknows://searches/" ++ zeros 2 ++ "1")
                   "application/json" (JSON_stringify (response search))]))
    | None =>
        (Sample.two_entries, [],
         inl (McpError InvalidRequest
                ("Search result not found: " ++ Number_toString (parseInt "1"))))
    end.
Proof.
  assert (Hne : "1" <> EmptyString) by discriminate.
  split; [exact Hne|]. split; [reflexivity|].
  exact (leading_zeros_read_same_entry 2 "1" (Sample.answering JNull "t")
           Sample.two_entries Hne eq_refl).
Defined.

Lemma two_entries_have_string_queries :
  Forall (fun s => exists q, ToString (query s) = inr q) Sample.two_entries.
Proof.
  repeat (apply Forall_cons; [eexists; reflexivity|]). apply Forall_nil.
Qed.

(** Witness of X11: listing a cache of two. *)
Lemma listing_describes_cache_witness :
  Forall (fun s => exists q, ToString (query s) = inr q) Sample.two_entries /\
  exists rs,
    listResources (Sample.answering JNull "t") Sample.two_entries =
      (Sample.two_entries, [], inr (ListResourcesResult.mk rs)) /\
    length rs = length Sample.two_entries /\
    forall i s q,
      nth_error Sample.two_entries i = Some s -> ToString (query s) = inr q ->
      nth_error rs i =
        Some (Resource.mk
                ("brianknows://searches/" ++ Number_toString (Z.of_nat i))
                ("Recent search: " ++ q) "application/json"
                ("Search results for: " ++ q ++ " (" ++ timestamp s ++ ")")).
Proof.
  split; [exact two_entries_have_string_queries|].
  exact (listing_describes_cache (Sample.answering JNull "t") Sample.two_entries
           two_entries_have_string_queries).
Defined.

Lemma sample_prints_two_indices : prints_indices (length Sample.two_entries).
Proof.
  intros i Hi. cbn in Hi.
  destruct i as [|[|i]]; [| |lia]; repeat split; discriminate || reflexivity.
Qed.

(** Witness of X12: the second descriptor of the listing of a cache of
    two, read back. *)
Lemma listed_resources_can_be_read_witness :
  prints_indices (length Sample.two_entries) /\
  exists s,
    nth_error Sample.two_entries 1 = Some s /\
    readResource "brianknows://searches/1" (Sample.answering JNull "t")
      Sample.two_entries =
      (Sample.two_entries, [],
       inr (ReadResult.mk
              [ResourceContents.mk "brianknows://searches/1" "application/json"
                 (JSON_stringify (response s))])).
Proof.
  split; [exact sample_prints_two_indices|].
  exact (listed_resources_can_be_read (Sample.answering JNull "t")
           (Sample.answering JNull "t") Sample.two_entries
           [Resource.mk "brianknows://searches/0" "Recent search: q2" "application/json"
              "Search results for: q2 (t2)";
            Resource.mk "brianknows://searches/1" "Recent search: q1" "application/json"
              "Search results for: q1 (t1)"]
           sample_prints_two_indices eq_refl 1
           (Resource.mk "brianknows://searches/1" "Recent search: q1" "application/json"
              "Search results for: q1 (t1)")
           eq_refl).
Defined.

(** Witness of X13: an agent call whose prompt shadows [toString]. *)
Lemma unprintable_prompt_breaks_listing_witness :
  truthy (opt_get Sample.shadowing_args "prompt") = true /\
  http (Sample.answering JNull "t1")
    (HttpPost API_CONFIG.ENDPOINTS.AGENT (agentRequest Sample.shadowing_args))
    = Resolved (AxiosResponse.mk 200 JNull) /\
  ToString (opt_get Sample.shadowing_args "prompt") = inl TypeError /\
  exists c' made result,
    callTool "agent" Sample.shadowing_args (Sample.answering JNull "t1")
      Sample.two_entries = (c', made, inr result) /\
    listResources (Sample.answering JNull "t2") c' = (c', [], inl TypeError) /\
    (length Sample.two_entries <= 5 ->
     forall rqs,
       length (recorded_by rqs) < 5 ->
       listResources (Sample.answering JNull "t2") (fst (serve rqs c')) =
         (fst (serve rqs c'), [], inl TypeError)) /\
    (length Sample.two_entries <= 5 ->
     forall rqs,
       5 <= length (recorded_by rqs) ->
       fst (serve rqs c') = firstn 5 (rev (recorded_by rqs))).
Proof.
  split; [reflexivity|]. split; [reflexivity|]. split; [reflexivity|].
  exact (unprintable_prompt_breaks_listing (Sample.answering JNull "t1")
           (Sample.answering JNull "t2") Sample.two_entries Sample.shadowing_args
           (AxiosResponse.mk 200 JNull) eq_refl eq_refl eq_refl).
Defined.

Example listing_breaks_then_recovers :
  let c' := fst (fst (callTool "agent" Sample.shadowing_args
                        (Sample.answering JNull "t0") initial_cache)) in
  snd (listResources (Sample.answering JNull "t") (fst (serve (firstn 4 Sample.six_calls) c')))
    = inl TypeError /\
  exists rs,
    snd (listResources (Sample.answering JNull "t") (fst (serve (firstn 5 Sample.six_calls) c')))
      = inr (ListResourcesResult.mk rs) /\ length rs = 5.
Proof.
  split; [vm_compute; reflexivity|]. eexists. split; vm_compute; reflexivity.
Qed.

(** Witness of X14: a ping answered with status 500 and an [error]
    object that shadows [toString]. *)
Lemma unprintable_upstream_error_escapes_witness :
  callTool "ping" None (Sample.failing Sample.shadowing_error "t") Sample.two_entries =
    (Sample.two_entries, [HttpGet API_CONFIG.ENDPOINTS.PING], inl TypeError) /\
  upstream_error Sample.shadowing_error = Some Sample.shadowing /\
  ToString (Some Sample.shadowing) = inl TypeError /\
  Sample.two_entries = Sample.two_entries /\
  (inl TypeError : Exn + ToolResult.t) = inl TypeError.
Proof.
  split; [reflexivity|]. split; [reflexivity|]. split; [reflexivity|].
  exact (unprintable_upstream_error_escapes "ping" None
           (Sample.failing Sample.shadowing_error "t") Sample.two_entries
           Sample.two_entries [HttpGet API_CONFIG.ENDPOINTS.PING] (inl TypeError)
           (HttpGet API_CONFIG.ENDPOINTS.PING) Sample.shadowing_error Sample.shadowing
           eq_refl (or_introl eq_refl) eq_refl eq_refl eq_refl).
Defined.
